(** * TextLabel: the editable text label of a shape

    A shallow embedding of
    [packages/tldraw/src/state/shapes/shared/TextLabel.tsx].

    The component is a React function component.  Its event handlers and
    effect bodies are translated one by one into a small state-and-exception
    monad over a [World] holding the objects they touch (the two refs, the
    mounted textarea, the inner wrapper element, the document focus, the
    pending animation-frame requests) together with the log of the calls
    made to the surroundings (the event object, the callback props, the DOM
    methods).  The host (React and the DOM) is modelled only as far as the
    component's own code depends on it; each such assumption is stated
    where it is made. *)

From Stdlib Require Import String Ascii DecimalString List Bool Arith Lia.
Import ListNotations.
Open Scope string_scope.

(** ** Data *)

(** The fields of [React.KeyboardEvent] that [handleKeyDown] reads. *)
Record KeyboardEvent : Type := mkKeyboardEvent {
  key : string;
  metaKey : bool;
  ctrlKey : bool;
  shiftKey : bool
}.

(** The state of the [<TextArea>] that the handlers read or write. *)
Record HTMLTextAreaElement : Type := mkTextArea {
  value : string;
  selectionStart : nat;
  selectionEnd : nat
}.

(** What [<InnerWrapper>] holds: the textarea when editing, the text
    otherwise (a zero-width space follows in both cases). *)
Inductive Children : Type :=
| child_TextArea
| child_text (s : string).

(** The state of the [<InnerWrapper>] div: the two style entries given
    through the [style] prop, the three written by the layout effect, and
    the children. *)
Record HTMLDivElement : Type := mkDiv {
  style_font : string;
  style_color : string;
  style_transform : string;
  style_width : string;
  style_height : string;
  children : Children
}.

(** A callback prop is known by its identity only. *)
Definition Callback : Type := nat.

(** The calls the component makes to its surroundings. *)
Inductive Call : Type :=
| call_stopPropagation            (* e.stopPropagation() on a keydown event *)
| call_preventDefault             (* e.preventDefault() on a keydown event *)
| call_pointer_stopPropagation    (* e.stopPropagation() on a pointerdown event *)
| call_execCommand (commandId : string)   (* document.execCommand(commandId, false) *)
| call_onChange (f : Callback) (text : string)
| call_onBlur (f : Callback)
| call_blur                       (* e.currentTarget.blur() *)
| call_focus                      (* elm.focus() *)
| call_select                     (* elm.select() *)
| call_setSelectionRange (selStart selEnd : nat)
| call_indent                     (* TextAreaUtils.indent(e.currentTarget) *)
| call_unindent                   (* TextAreaUtils.unindent(e.currentTarget) *)
| call_requestAnimationFrame.

Definition Call_eq_dec (a b : Call) : {a = b} + {a <> b}.
Proof. decide equality; auto using string_dec, Nat.eq_dec. Defined.

(** The only function ever handed to [requestAnimationFrame]. *)
Inductive FrameRequest : Type :=
| FocusAndSelect.

Record World : Type := mkWorld {
  rInput : option HTMLTextAreaElement;     (* rInput.current *)
  rIsMounted : bool;                       (* rIsMounted.current *)
  rInnerWrapper : option HTMLDivElement;   (* rInnerWrapper.current *)
  activeElement : bool;                    (* document.activeElement is the textarea *)
  frames : list FrameRequest;              (* requested, not yet run *)
  calls : list Call                        (* oldest first *)
}.

Definition set_rInput (o : option HTMLTextAreaElement) (w : World) : World :=
  mkWorld o (rIsMounted w) (rInnerWrapper w) (activeElement w) (frames w) (calls w).
Definition set_rIsMounted (b : bool) (w : World) : World :=
  mkWorld (rInput w) b (rInnerWrapper w) (activeElement w) (frames w) (calls w).
Definition set_rInnerWrapper (o : option HTMLDivElement) (w : World) : World :=
  mkWorld (rInput w) (rIsMounted w) o (activeElement w) (frames w) (calls w).
Definition set_activeElement (b : bool) (w : World) : World :=
  mkWorld (rInput w) (rIsMounted w) (rInnerWrapper w) b (frames w) (calls w).
Definition set_frames (l : list FrameRequest) (w : World) : World :=
  mkWorld (rInput w) (rIsMounted w) (rInnerWrapper w) (activeElement w) l (calls w).
Definition set_calls (l : list Call) (w : World) : World :=
  mkWorld (rInput w) (rIsMounted w) (rInnerWrapper w) (activeElement w) (frames w) l.

(** ** The monad of handlers

    A handler runs on the world and either completes or throws; what it
    did before throwing stays done, as in JavaScript. *)

Inductive Completion (A : Type) : Type :=
| Normal (a : A)
| TypeError.
Arguments Normal {A} a.
Arguments TypeError {A}.

Definition M (A : Type) : Type := World -> Completion A * World.

Definition ret {A : Type} (a : A) : M A := fun w => (Normal a, w).

Definition bind {A B : Type} (m : M A) (f : A -> M B) : M B :=
  fun w =>
    match m w with
    | (Normal a, w') => f a w'
    | (TypeError, w') => (TypeError, w')
    end.

Declare Scope handler_scope.
Delimit Scope handler_scope with handler.
Notation "x <- m ;; k" := (bind m (fun x => k))
  (at level 61, m at next level, right associativity) : handler_scope.
Notation "m ;; k" := (bind m (fun _ => k))
  (at level 61, right associativity) : handler_scope.
Open Scope handler_scope.

Definition get : M World := fun w => (Normal w, w).
Definition modify (f : World -> World) : M unit := fun w => (Normal tt, f w).
Definition call (c : Call) : M unit := modify (fun w => set_calls (calls w ++ [c]) w).

(** The world a handler leaves, and the calls it added to the log. *)
Definition exec {A : Type} (m : M A) (w : World) : World := snd (m w).
Definition emitted {A : Type} (m : M A) (w : World) : list Call :=
  skipn (length (calls w)) (calls (exec m w)).

(** [e.currentTarget], the textarea the handlers are attached to.  Reading
    a property of a missing element throws. *)
Definition currentTarget : M HTMLTextAreaElement :=
  fun w =>
    match rInput w with
    | Some el => (Normal el, w)
    | None => (TypeError, w)
    end.

Definition update_currentTarget (f : HTMLTextAreaElement -> HTMLTextAreaElement) : M unit :=
  el <- currentTarget ;; modify (set_rInput (Some (f el))).

(** *** DOM methods of the textarea *)

(** [setSelectionRange(a, b)]: both ends are clamped to the length of the
    value, and a start beyond the end is moved to the end. *)
Definition setSelectionRange (a b : nat) : M unit :=
  call (call_setSelectionRange a b) ;;
  update_currentTarget (fun el =>
    let n := String.length (value el) in
    mkTextArea (value el) (Nat.min (Nat.min a b) n) (Nat.min b n)).

(** [select()]: the whole value becomes the selection. *)
Definition select : M unit :=
  call call_select ;;
  update_currentTarget (fun el =>
    mkTextArea (value el) 0 (String.length (value el))).

(** [blur()]: when the textarea is the active element it loses the focus
    and its [onBlur] handler runs, before [blur()] returns; otherwise
    nothing happens. *)
Definition blur (onBlurHandler : M unit) : M unit :=
  call call_blur ;;
  w <- get ;;
  if activeElement w then
    modify (set_activeElement false) ;; onBlurHandler
  else ret tt.

(** [focus()]: when the textarea is not the active element it becomes so
    and its [onFocus] handler runs, before [focus()] returns; otherwise
    nothing happens. *)
Definition focus (onFocusHandler : M unit) : M unit :=
  call call_focus ;;
  w <- get ;;
  if activeElement w then ret tt
  else modify (set_activeElement true) ;; onFocusHandler.

Definition requestAnimationFrame (f : FrameRequest) : M unit :=
  call call_requestAnimationFrame ;;
  modify (fun w => set_frames (frames w ++ [f]) w).

(** ** Stand-ins for the imported helpers

    [TLDR.normalizeText], [TextAreaUtils] and [getTextLabelSize] live in
    other files; the component is modelled over any such helpers.  The
    stand-ins below only serve to run the model on concrete inputs. *)

Fixpoint standin_normalizeText (s : string) : string :=
  match s with
  | EmptyString => EmptyString
  | String c s' =>
      String (if Ascii.eqb c "013"%char then "010"%char else c)
             (standin_normalizeText s')
  end.

Definition standin_indent (el : HTMLTextAreaElement) : HTMLTextAreaElement :=
  mkTextArea ("  " ++ value el) (selectionStart el + 2) (selectionEnd el + 2).

Definition standin_unindent (el : HTMLTextAreaElement) : HTMLTextAreaElement :=
  match value el with
  | String " " (String " " s') =>
      mkTextArea s' (selectionStart el - 2) (selectionEnd el - 2)
  | _ => el
  end.

Definition standin_toString (n : nat) : string :=
  DecimalString.NilEmpty.string_of_uint (Nat.to_uint n).

Definition standin_getTextLabelSize (text font : string) : nat * nat :=
  (8 * String.length text, 16).

(** ** The component *)

Section TextLabel.

(** JavaScript numbers are left abstract: the component only compares
    them (hook dependencies, [React.memo]) and prints them. *)
Variable number : Type.
Variable number_0 number_1 : number.            (* the literals 0 and 1 *)
Variable Number_toString : number -> string.    (* `${n}` and n + 'px' *)
Variable number_eq_dec : forall x y : number, {x = y} + {x <> y}.

(** [Object.is] on numbers tells apart exactly the numbers that differ. *)
Definition Object_is (x y : number) : bool :=
  if number_eq_dec x y then true else false.

(** The helpers imported from other files of the package. *)
Variable normalizeText : string -> string.      (* TLDR.normalizeText *)
Variable indent : HTMLTextAreaElement -> HTMLTextAreaElement.    (* TextAreaUtils.indent *)
Variable unindent : HTMLTextAreaElement -> HTMLTextAreaElement.  (* TextAreaUtils.unindent *)
Variable getTextLabelSize : string -> string -> number * number.

Record TextLabelProps : Type := mkProps {
  font : string;
  text : string;
  isDarkMode : bool;
  onBlur : option Callback;
  onChange : Callback;
  offsetY : option number;
  offsetX : option number;
  scale : option number;
  isEditing : option bool
}.

(** The destructured props with their defaults. *)
Definition offsetX_ (p : TextLabelProps) : number :=
  match offsetX p with Some x => x | None => number_0 end.
Definition offsetY_ (p : TextLabelProps) : number :=
  match offsetY p with Some y => y | None => number_0 end.
Definition scale_ (p : TextLabelProps) : number :=
  match scale p with Some s => s | None => number_1 end.
Definition isEditing_ (p : TextLabelProps) : bool :=
  match isEditing p with Some b => b | None => false end.

Definition size (p : TextLabelProps) : number * number :=
  getTextLabelSize (text p) (font p).
Definition color (p : TextLabelProps) : string :=
  if isDarkMode p then "white" else "black".

(** [onBlur?.()] *)
Definition onBlur_optional (p : TextLabelProps) : M unit :=
  match onBlur p with
  | Some f => call (call_onBlur f)
  | None => ret tt
  end.

(** *** Event handlers *)

Definition handleChange (p : TextLabelProps) : M unit :=
  el <- currentTarget ;;
  call (call_onChange (onChange p) (normalizeText (value el))).

Definition handleBlur (p : TextLabelProps) : M unit :=
  setSelectionRange 0 0 ;;
  onBlur_optional p.

Definition handleFocus (p : TextLabelProps) : M unit :=
  if negb (isEditing_ p) then ret tt
  else
    w <- get ;;
    if negb (rIsMounted w) then ret tt
    else if activeElement w then select
    else ret tt.

Definition handlePointerDown (p : TextLabelProps) : M unit :=
  if isEditing_ p then call call_pointer_stopPropagation else ret tt.

(** The part of [handleKeyDown] after its first conditional. *)
Definition handleKeyDown_rest (p : TextLabelProps) (e : KeyboardEvent) : M unit :=
  if (key e =? "Escape") || ((key e =? "Enter") && (ctrlKey e || metaKey e)) then
    blur (handleBlur p)
  else if key e =? "Tab" then
    call call_preventDefault ;;
    (if shiftKey e then
       call call_unindent ;; update_currentTarget unindent
     else
       call call_indent ;; update_currentTarget indent) ;;
    el <- currentTarget ;;
    call (call_onChange (onChange p) (normalizeText (value el)))
  else ret tt.

(** [document.execCommand] is a call to the browser: what its undo or
    redo does to the text of the textarea, and the input event that
    follows, are the browser's and are not part of this model. *)
Definition handleKeyDown (p : TextLabelProps) (e : KeyboardEvent) : M unit :=
  if negb ((key e =? "Meta") || metaKey e) then
    call call_stopPropagation ;;
    handleKeyDown_rest p e
  else if (key e =? "z") && metaKey e then
    (if shiftKey e then call (call_execCommand "redo")
     else call (call_execCommand "undo")) ;;
    call call_stopPropagation ;;
    call call_preventDefault
  else handleKeyDown_rest p e.

(** *** Effects *)

(** The function given to [requestAnimationFrame]; [p] is the render
    whose handlers are attached when the frame comes. *)
Definition frameCallback (p : TextLabelProps) : M unit :=
  modify (set_rIsMounted true) ;;
  w <- get ;;
  match rInput w with
  | Some _ => focus (handleFocus p) ;; select
  | None => ret tt
  end.

(** [React.useEffect(..., [isEditing, onBlur])] *)
Definition editingEffect (p : TextLabelProps) : M unit :=
  if isEditing_ p then requestAnimationFrame FocusAndSelect
  else onBlur_optional p.

Definition transform (p : TextLabelProps) : string :=
  "scale(" ++ Number_toString (scale_ p) ++ ", " ++ Number_toString (scale_ p)
    ++ ") translate(" ++ Number_toString (offsetX_ p) ++ "px, "
    ++ Number_toString (offsetY_ p) ++ "px)".

(** [React.useLayoutEffect(..., [size, offsetY, offsetX, scale])] *)
Definition layoutEffect (p : TextLabelProps) : M unit :=
  w <- get ;;
  match rInnerWrapper w with
  | None => ret tt
  | Some elm =>
      modify (set_rInnerWrapper (Some
        (mkDiv (style_font elm) (style_color elm)
               (transform p)
               (Number_toString (fst (size p)) ++ "px")
               (Number_toString (snd (size p)) ++ "px")
               (children elm))))
  end.

(** *** Rendering

    What React does with the component when the parent renders it.  The
    assumptions on React are: a memoized component is skipped when its
    props are shallowly equal to the previous ones; an effect runs after
    the first render and after every render in which one of its
    dependencies is not [Object.is]-equal to the previous one, layout
    effects before the others; [defaultValue] sets the value of a
    textarea when it is mounted; [autoFocus] focuses it when it is
    mounted; no handler runs while the DOM is mutated.  A render of the
    mounted textarea with another [text] leaves its value alone here,
    which is what React does once the textarea has been edited or was
    mounted with a text that is not empty; that React hands the new
    [defaultValue] to a textarea that is still untouched is not modelled. *)

(** What the host decides in a render: whether [getTextLabelSize]
    returned an array that is not the previous one, and where the caret
    of a newly mounted textarea is. *)
Record RenderEnv : Type := mkRenderEnv {
  sizeIsNew : bool;
  caret : nat
}.

Definition option_is {A : Type} (same : A -> A -> bool) (a b : option A) : bool :=
  match a, b with
  | Some x, Some y => same x y
  | None, None => true
  | _, _ => false
  end.

Definition propsAreEqual (q p : TextLabelProps) : bool :=
  (font q =? font p) && (text q =? text p)
  && Bool.eqb (isDarkMode q) (isDarkMode p)
  && option_is Nat.eqb (onBlur q) (onBlur p)
  && Nat.eqb (onChange q) (onChange p)
  && option_is Object_is (offsetY q) (offsetY p)
  && option_is Object_is (offsetX q) (offsetX p)
  && option_is Object_is (scale q) (scale p)
  && option_is Bool.eqb (isEditing q) (isEditing p).

(** The dependency lists of the two effects. *)
Definition editingDepsEqual (q p : TextLabelProps) : bool :=
  Bool.eqb (isEditing_ q) (isEditing_ p)
  && option_is Nat.eqb (onBlur q) (onBlur p).

Definition layoutDepsEqual (env : RenderEnv) (q p : TextLabelProps) : bool :=
  negb (sizeIsNew env)
  && Object_is (offsetY_ q) (offsetY_ p)
  && Object_is (offsetX_ q) (offsetX_ p)
  && Object_is (scale_ q) (scale_ p).

Definition children_of (p : TextLabelProps) : Children :=
  if isEditing_ p then child_TextArea else child_text (text p).

Definition mountTextArea (p : TextLabelProps) (env : RenderEnv) : M unit :=
  let c := Nat.min (caret env) (String.length (text p)) in
  modify (set_rInput (Some (mkTextArea (text p) c c))).

Definition unmountTextArea : M unit :=
  modify (fun w => set_activeElement false (set_rInput None w)).

(** React writes the entries of the [style] prop and the children of
    [<InnerWrapper>] that differ from the previous render; the style
    entries set by the layout effect are not in the [style] prop and
    stay. *)
Definition updateInnerWrapper (q p : TextLabelProps) : M unit :=
  modify (fun w =>
    match rInnerWrapper w with
    | Some elm =>
        set_rInnerWrapper (Some
          (mkDiv (if font q =? font p then style_font elm else font p)
                 (if color q =? color p then style_color elm else color p)
                 (style_transform elm) (style_width elm) (style_height elm)
                 (if Bool.eqb (isEditing_ q) (isEditing_ p) && (text q =? text p)
                  then children elm else children_of p))) w
    | None => w
    end).

Definition firstRender (p : TextLabelProps) (env : RenderEnv) : M unit :=
  modify (set_rInnerWrapper (Some
    (mkDiv (font p) (color p) "" "" "" (children_of p)))) ;;
  (if isEditing_ p then
     mountTextArea p env ;; focus (handleFocus p)
   else ret tt) ;;
  layoutEffect p ;;
  editingEffect p.

Definition reRender (q p : TextLabelProps) (env : RenderEnv) : M unit :=
  if propsAreEqual q p then ret tt
  else
    updateInnerWrapper q p ;;
    (if isEditing_ q then
       if isEditing_ p then ret tt else unmountTextArea
     else
       if isEditing_ p then mountTextArea p env ;; focus (handleFocus p)
       else ret tt) ;;
    (if layoutDepsEqual env q p then ret tt else layoutEffect p) ;;
    (if editingDepsEqual q p then ret tt else editingEffect p).

Definition render (prev : option TextLabelProps) (p : TextLabelProps)
    (env : RenderEnv) : M unit :=
  match prev with
  | None => firstRender p env
  | Some q => reRender q p env
  end.

(** *** The component among its host events *)

Record Component : Type := mkComponent {
  rendered : option TextLabelProps;   (* the props of the last render *)
  world : World
}.

Definition unmounted : Component :=
  mkComponent None (mkWorld None false None false [] []).

Inductive HostEvent : Type :=
| Render (p : TextLabelProps) (env : RenderEnv)
| AnimationFrame
| Change (raw : string) (caretAfter : nat)   (* the user edits the text *)
| KeyDown (e : KeyboardEvent)
| FocusOut                                   (* the focus leaves the textarea *)
| FocusIn                                    (* the focus comes to the textarea *)
| PointerDown.

Fixpoint runRequests (p : TextLabelProps) (l : list FrameRequest) (w : World) : World :=
  match l with
  | [] => w
  | FocusAndSelect :: l' => runRequests p l' (exec (frameCallback p) w)
  end.

Definition animationFrame (p : TextLabelProps) (w : World) : World :=
  runRequests p (frames w) (set_frames [] w).

(** A host event happens only where the host can produce it: the events
    of the textarea need the textarea, a key goes to the element that has
    the focus.  [None] says that the event cannot happen. *)
Definition dispatch (ev : HostEvent) (c : Component) : option Component :=
  match ev with
  | Render p env =>
      Some (mkComponent (Some p) (exec (render (rendered c) p env) (world c)))
  | _ =>
      match rendered c, rInput (world c) with
      | Some p, Some el =>
          let w := world c in
          match ev with
          | Render _ _ => None
          | AnimationFrame => Some (mkComponent (Some p) (animationFrame p w))
          | Change raw n =>
              let n' := Nat.min n (String.length raw) in
              Some (mkComponent (Some p)
                (exec (handleChange p) (set_rInput (Some (mkTextArea raw n' n')) w)))
          | KeyDown e =>
              if activeElement w
              then Some (mkComponent (Some p) (exec (handleKeyDown p e) w))
              else None
          | FocusOut =>
              if activeElement w
              then Some (mkComponent (Some p)
                     (exec (handleBlur p) (set_activeElement false w)))
              else None
          | FocusIn =>
              if activeElement w then None
              else Some (mkComponent (Some p)
                     (exec (handleFocus p) (set_activeElement true w)))
          | PointerDown => Some (mkComponent (Some p) (exec (handlePointerDown p) w))
          end
      | Some p, None =>
          match ev with
          | AnimationFrame => Some (mkComponent (Some p) (animationFrame p (world c)))
          | _ => None
          end
      | None, _ => None
      end
  end.

Fixpoint run (evs : list HostEvent) (c : Component) : option Component :=
  match evs with
  | [] => Some c
  | ev :: evs' =>
      match dispatch ev c with
      | Some c' => run evs' c'
      | None => None
      end
  end.

(** *** Definitions for the properties *)

(** Props that differ from [q] in the layout inputs only. *)
Definition withLayout (q : TextLabelProps) (s x y : option number) : TextLabelProps :=
  mkProps (font q) (text q) (isDarkMode q) (onBlur q) (onChange q) y x s (isEditing q).

(** A call that hands text to the parent hands normalized text. *)
Definition normalized_call (c : Call) : Prop :=
  match c with
  | call_onChange _ s => exists raw : string, s = normalizeText raw
  | _ => True
  end.

(** A handler keeps a property of the calls in the log. *)
Definition log_invariant (P : Call -> Prop) {A : Type} (m : M A) : Prop :=
  forall w : World, Forall P (calls w) -> Forall P (calls (exec m w)).

(** The exception set as the specification words it: the shortcuts for
    copy, paste, undo, redo and select-all, that is the Meta modifier
    with c, v, z (redo adds Shift) or a. *)
Definition spec_exception (e : KeyboardEvent) : bool :=
  metaKey e && ((key e =? "c") || (key e =? "v") || (key e =? "z") || (key e =? "a")).

(** The keydown claim as the specification words it: propagation is
    stopped for every key outside the exception set and for none in it. *)
Definition spec_keydown_propagation : Prop :=
  forall (p : TextLabelProps) (e : KeyboardEvent) (w : World),
    In call_stopPropagation (emitted (handleKeyDown p e) w)
    <-> spec_exception e = false.

(** The Escape claim as the specification words it, the effect it cites
    included: from the press of Escape on the textarea that has the focus
    to the end of the next render, whatever that render is, the blur
    callback is called once. *)
Definition spec_Escape_blur_once : Prop :=
  forall (q p : TextLabelProps) (e : KeyboardEvent) (env : RenderEnv) (w : World)
         (el : HTMLTextAreaElement) (f : Callback),
    key e = "Escape" ->
    rInput w = Some el -> activeElement w = true ->
    isEditing_ q = true -> onBlur q = Some f -> onBlur p = Some f ->
    count_occ Call_eq_dec
      (emitted (handleKeyDown q e) w
         ++ emitted (render (Some q) p env) (exec (handleKeyDown q e) w))
      (call_onBlur f) = 1.

(** Sample inputs. *)
Definition sample_props (editing : bool) : TextLabelProps :=
  mkProps "16px sans" "label" false (Some 7) 8 None None None (Some editing).
Definition sample_textarea : HTMLTextAreaElement :=
  mkTextArea ("one" ++ String "013" "two") 2 4.
Definition sample_div : HTMLDivElement :=
  mkDiv "16px sans" "black" "" "" "" child_TextArea.
Definition sample_world : World :=
  mkWorld (Some sample_textarea) true (Some sample_div) true [] [call_focus].
Definition sample_world_pending : World :=
  mkWorld (Some sample_textarea) false (Some sample_div) false [FocusAndSelect] [].
Definition key_Escape : KeyboardEvent := mkKeyboardEvent "Escape" false false false.
Definition key_Tab (shift : bool) : KeyboardEvent := mkKeyboardEvent "Tab" false false shift.
Definition key_undo : KeyboardEvent := mkKeyboardEvent "z" true false false.
Definition key_bold : KeyboardEvent := mkKeyboardEvent "b" true false false.
Definition key_mod_Enter : KeyboardEvent := mkKeyboardEvent "Enter" false true false.
Definition key_letter : KeyboardEvent := mkKeyboardEvent "x" false false false.

(** The textarea is in the document. *)
Definition mounted (w : World) : bool :=
  match rInput w with Some _ => true | None => false end.

(** What the JSX of the component keeps true between host events: the
    textarea is there exactly when the last render was an editing one, the
    focus is on it only if it is there, and the inner wrapper is there
    from the first render on. *)
Definition consistent (c : Component) : bool :=
  match rendered c with
  | None => negb (mounted (world c)) && negb (activeElement (world c))
  | Some p =>
      Bool.eqb (mounted (world c)) (isEditing_ p)
      && implb (activeElement (world c)) (mounted (world c))
      && match rInnerWrapper (world c) with Some _ => true | None => false end
  end.

(** The inner wrapper carries the transform and the size of the render [p]. *)
Definition layout_in_sync (p : TextLabelProps) (w : World) : Prop :=
  match rInnerWrapper w with
  | Some elm =>
      style_transform elm = transform p
      /\ style_width elm = Number_toString (fst (size p)) ++ "px"
      /\ style_height elm = Number_toString (snd (size p)) ++ "px"
  | None => False
  end.

(** A second callback, and a render of the label with other layout inputs. *)
Definition sample_props_other_onBlur (editing : bool) : TextLabelProps :=
  mkProps "16px sans" "label" false (Some 9) 8 None None None (Some editing).
Definition sample_world_fresh : World := mkWorld None false None false [] [].

Definition sample_world_shown : World :=
  mkWorld None true (Some sample_div) false [] [].

(** Two more sessions: one in which no frame comes, and one that ends with
    the textarea mounted and without the focus. *)
Definition sample_session_no_frame : list HostEvent :=
  [ Render (sample_props false) (mkRenderEnv true 0);
    Render (sample_props true) (mkRenderEnv true 5);
    Change "text" 4;
    KeyDown key_Escape;
    FocusIn;
    PointerDown ].
Definition sample_session_editing : list HostEvent :=
  [ Render (sample_props true) (mkRenderEnv true 5);
    AnimationFrame;
    KeyDown key_Escape ].

(** A session: the label is shown, then edited (a frame, an edit, a Tab,
    an Escape), then shown again. *)
Definition sample_session : list HostEvent :=
  [ Render (sample_props false) (mkRenderEnv true 0);
    Render (sample_props true) (mkRenderEnv true 5);
    AnimationFrame;
    Change ("one" ++ String "013" "two") 7;
    KeyDown (key_Tab false);
    KeyDown key_Escape;
    Render (sample_props false) (mkRenderEnv false 0) ].

(** ** Properties *)

Local Open Scope list_scope.

Lemma skipn_length_app (A : Type) (l l' : list A) :
  skipn (length l) (l ++ l') = l'.
Proof. induction l as [|a l IH]; simpl; auto. Qed.

Lemma emitted_from_calls (A : Type) (m : M A) (w : World) (l : list Call) :
  calls (exec m w) = calls w ++ l -> emitted m w = l.
Proof. unfold emitted; intros ->; apply skipn_length_app. Qed.

(** Evaluation of a handler on a world given by its fields. *)
Ltac step_handler :=
  cbv [handleKeyDown handleKeyDown_rest handleBlur handleChange handleFocus
       handlePointerDown onBlur_optional frameCallback editingEffect
       layoutEffect blur focus select setSelectionRange requestAnimationFrame
       update_currentTarget currentTarget call modify get bind ret exec emitted
       set_rInput set_rIsMounted set_rInnerWrapper set_activeElement
       set_frames set_calls
       rInput rIsMounted rInnerWrapper activeElement frames calls
       fst snd].

Ltac tidy_log :=
  repeat rewrite <- app_assoc; cbn [app];
  rewrite ?skipn_length_app, ?skipn_all.

(** The five keys [handleKeyDown] tells apart. *)
Ltac split_key k :=
  unfold handleKeyDown, handleKeyDown_rest;
  cbn [key metaKey ctrlKey shiftKey];
  destruct (k =? "Meta") eqn:?, (k =? "z") eqn:?, (k =? "Escape") eqn:?,
           (k =? "Enter") eqn:?, (k =? "Tab") eqn:?;
  repeat match goal with
         | H : (_ =? _) = true |- _ => apply String.eqb_eq in H
         | H : (_ =? _) = false |- _ => apply String.eqb_neq in H
         end;
  try congruence.

Lemma handleBlur_eq (p : TextLabelProps) (w : World) (el : HTMLTextAreaElement) :
  rInput w = Some el ->
  handleBlur p w =
    (Normal tt,
     set_calls
       (calls w ++ call_setSelectionRange 0 0 ::
          match onBlur p with Some f => [call_onBlur f] | None => [] end)
       (set_rInput (Some (mkTextArea (value el) 0 0)) w)).
Proof.
  destruct w as [ri rm rw ae fr cs]; cbn; intros ->.
  step_handler; cbn.
  destruct (onBlur p); cbn; tidy_log; reflexivity.
Qed.

Lemma handleChange_eq (p : TextLabelProps) (w : World) (el : HTMLTextAreaElement) :
  rInput w = Some el ->
  handleChange p w =
    (Normal tt,
     set_calls (calls w ++ [call_onChange (onChange p) (normalizeText (value el))]) w).
Proof.
  destruct w as [ri rm rw ae fr cs]; cbn; intros ->.
  reflexivity.
Qed.

Lemma handleKeyDown_Tab_eq (p : TextLabelProps) (e : KeyboardEvent) (w : World)
    (el : HTMLTextAreaElement) :
  key e = "Tab" ->
  rInput w = Some el ->
  let el' := if shiftKey e then unindent el else indent el in
  handleKeyDown p e w =
    (Normal tt,
     set_calls
       (calls w
          ++ (if metaKey e then [] else [call_stopPropagation])
          ++ [call_preventDefault;
              if shiftKey e then call_unindent else call_indent;
              call_onChange (onChange p) (normalizeText (value el'))])
       (set_rInput (Some el') w)).
Proof.
  destruct e as [k m c s]; destruct w as [ri rm rw ae fr cs]; cbn.
  intros -> ->.
  destruct m, s; step_handler; cbn; tidy_log; reflexivity.
Qed.

(** *** The log only ever holds normalized text *)

Lemma inv_ret (P : Call -> Prop) (A : Type) (a : A) : log_invariant P (ret a).
Proof. intros w H; exact H. Qed.

Lemma inv_get (P : Call -> Prop) : log_invariant P get.
Proof. intros w H; exact H. Qed.

Lemma inv_currentTarget (P : Call -> Prop) : log_invariant P currentTarget.
Proof. intros w H; unfold exec, currentTarget; destruct (rInput w); exact H. Qed.

Lemma inv_modify (P : Call -> Prop) (f : World -> World) :
  (forall w, calls (f w) = calls w) -> log_invariant P (modify f).
Proof. intros Hf w H; unfold exec, modify; simpl; rewrite Hf; exact H. Qed.

Lemma inv_call (P : Call -> Prop) (c : Call) : P c -> log_invariant P (call c).
Proof.
  intros Hc w H; unfold exec, call, modify; simpl.
  apply Forall_app; split; [exact H | constructor; [exact Hc | constructor]].
Qed.

Lemma inv_bind (P : Call -> Prop) (A B : Type) (m : M A) (f : A -> M B) :
  log_invariant P m -> (forall a, log_invariant P (f a)) ->
  log_invariant P (bind m f).
Proof.
  intros Hm Hf w H; unfold exec, bind.
  specialize (Hm w H); unfold exec in Hm.
  destruct (m w) as [[a|] w']; simpl in *; [apply Hf; exact Hm | exact Hm].
Qed.

Ltac inv_step :=
  first
    [ assumption | apply inv_ret | apply inv_get | apply inv_currentTarget
    | apply inv_call; cbn; solve [eauto]
    | apply inv_modify; intros w0; unfold updateInnerWrapper;
      try destruct (rInnerWrapper w0); reflexivity
    | apply inv_bind; [|intros]
    | match goal with
      | |- log_invariant _ (if ?b then _ else _) => destruct b
      | |- log_invariant _ (match ?x with _ => _ end) => destruct x
      end ].

Ltac inv_handler := intros; repeat inv_step.

Lemma inv_handleBlur p : log_invariant normalized_call (handleBlur p).
Proof.
  unfold handleBlur, setSelectionRange, update_currentTarget, onBlur_optional.
  inv_handler.
Qed.

Lemma inv_handleFocus p : log_invariant normalized_call (handleFocus p).
Proof.
  unfold handleFocus, select, update_currentTarget. inv_handler.
Qed.

Lemma inv_handleChange p : log_invariant normalized_call (handleChange p).
Proof. unfold handleChange. inv_handler. Qed.

Lemma inv_handlePointerDown p : log_invariant normalized_call (handlePointerDown p).
Proof. unfold handlePointerDown. inv_handler. Qed.

Lemma inv_handleKeyDown p e : log_invariant normalized_call (handleKeyDown p e).
Proof.
  pose proof (inv_handleBlur p).
  unfold handleKeyDown, handleKeyDown_rest, blur, update_currentTarget.
  inv_handler.
Qed.

Lemma inv_frameCallback p : log_invariant normalized_call (frameCallback p).
Proof.
  pose proof (inv_handleFocus p).
  unfold frameCallback, focus, select, update_currentTarget.
  inv_handler.
Qed.

Lemma inv_render prev p env : log_invariant normalized_call (render prev p env).
Proof.
  pose proof (inv_handleFocus p).
  unfold render, firstRender, reRender, updateInnerWrapper, mountTextArea,
    unmountTextArea, layoutEffect, editingEffect, requestAnimationFrame,
    onBlur_optional, focus.
  inv_handler.
Qed.

Lemma inv_runRequests p l :
  forall w, Forall normalized_call (calls w) ->
            Forall normalized_call (calls (runRequests p l w)).
Proof.
  induction l as [|[] l IH]; intros w H; simpl; [exact H|].
  apply IH, inv_frameCallback, H.
Qed.

Lemma inv_dispatch ev c c' :
  dispatch ev c = Some c' ->
  Forall normalized_call (calls (world c)) ->
  Forall normalized_call (calls (world c')).
Proof.
  destruct c as [r w]; unfold dispatch; simpl; intros D H.
  destruct ev; try destruct r as [p|]; try destruct (rInput w) as [el|];
    try destruct (activeElement w); try discriminate;
    injection D as <-; cbn [world].
  all: first
    [ apply inv_render; exact H
    | apply inv_runRequests; exact H
    | apply inv_handleChange; exact H
    | apply inv_handleKeyDown; exact H
    | apply inv_handleBlur; exact H
    | apply inv_handleFocus; exact H
    | apply inv_handlePointerDown; exact H ].
Qed.

Lemma inv_run evs :
  forall c c', run evs c = Some c' ->
    Forall normalized_call (calls (world c)) ->
    Forall normalized_call (calls (world c')).
Proof.
  induction evs as [|ev evs IH]; simpl; intros c c' R H.
  - injection R as <-; exact H.
  - destruct (dispatch ev c) as [c1|] eqn:D; [|discriminate].
    eapply IH; [exact R | eapply inv_dispatch; eauto].
Qed.

(** C1.  A change event hands [onChange] the normalization of the value
    the textarea holds, and nothing else; and whatever the host does
    with the component (renders, frames, edits, keys, focus changes,
    pointer presses), every text that reached [onChange] is the
    normalization of some text. *)
Theorem onChange_receives_normalized_text :
  (forall (p : TextLabelProps) (w : World) (el : HTMLTextAreaElement),
      rInput w = Some el ->
      emitted (handleChange p) w
        = [call_onChange (onChange p) (normalizeText (value el))])
  /\ (forall (evs : list HostEvent) (c : Component),
        run evs unmounted = Some c ->
        Forall normalized_call (calls (world c))).
Proof.
  split.
  - intros p w el H. apply emitted_from_calls.
    unfold exec. rewrite (handleChange_eq p w el H). reflexivity.
  - intros evs c R. eapply inv_run; [exact R | constructor].
Qed.

(** *** Keys *)

Lemma handleKeyDown_Escape_eq (p : TextLabelProps) (e : KeyboardEvent) (w : World)
    (el : HTMLTextAreaElement) :
  key e = "Escape" ->
  rInput w = Some el ->
  activeElement w = true ->
  handleKeyDown p e w =
    (Normal tt,
     set_calls
       (calls w
          ++ (if metaKey e then [] else [call_stopPropagation])
          ++ [call_blur; call_setSelectionRange 0 0]
          ++ match onBlur p with Some f => [call_onBlur f] | None => [] end)
       (set_activeElement false (set_rInput (Some (mkTextArea (value el) 0 0)) w))).
Proof.
  destruct e as [k m c s]; destruct w as [ri rm rw ae fr cs]; cbn.
  intros -> -> ->.
  destruct m, c, (onBlur p) eqn:B; step_handler; cbn; rewrite ?B; cbn;
    tidy_log; reflexivity.
Qed.

Lemma blur_count (p : TextLabelProps) (e : KeyboardEvent) (w : World) :
  count_occ Call_eq_dec (emitted (handleKeyDown p e) w) call_blur
  = if (key e =? "Escape") || ((key e =? "Enter") && (ctrlKey e || metaKey e))
    then 1 else 0.
Proof.
  destruct e as [k m c s]; destruct w as [ri rm rw ae fr cs].
  split_key k; destruct m, c, s, ri, ae, (onBlur p) eqn:B;
    step_handler; cbn; rewrite ?B; cbn; tidy_log; reflexivity.
Qed.

Lemma activeElement_after_keydown (p : TextLabelProps) (e : KeyboardEvent) (w : World) :
  activeElement (exec (handleKeyDown p e) w)
  = activeElement w
    && negb ((key e =? "Escape") || ((key e =? "Enter") && (ctrlKey e || metaKey e))).
Proof.
  destruct e as [k m c s]; destruct w as [ri rm rw ae fr cs].
  split_key k; destruct m, c, s, ri, ae, (onBlur p) eqn:B;
    step_handler; cbn; rewrite ?B; reflexivity.
Qed.

Lemma stopPropagation_count (p : TextLabelProps) (e : KeyboardEvent) (w : World) :
  count_occ Call_eq_dec (emitted (handleKeyDown p e) w) call_stopPropagation
  = if negb ((key e =? "Meta") || metaKey e) || ((key e =? "z") && metaKey e)
    then 1 else 0.
Proof.
  destruct e as [k m c s]; destruct w as [ri rm rw ae fr cs].
  split_key k; destruct m, c, s, ri, ae, (onBlur p) eqn:B;
    step_handler; cbn; rewrite ?B; cbn; tidy_log; reflexivity.
Qed.

Lemma In_count (l : list Call) (c : Call) (b : bool) :
  count_occ Call_eq_dec l c = (if b then 1 else 0) ->
  (In c l <-> b = true).
Proof using Type.
  intros H. rewrite (count_occ_In Call_eq_dec), H.
  destruct b; split; intros; try lia; try discriminate; reflexivity.
Qed.

Lemma exit_key_iff (e : KeyboardEvent) :
  (key e =? "Escape") || ((key e =? "Enter") && (ctrlKey e || metaKey e)) = true
  <-> key e = "Escape" \/ (key e = "Enter" /\ (ctrlKey e = true \/ metaKey e = true)).
Proof.
  rewrite orb_true_iff, andb_true_iff, orb_true_iff, !String.eqb_eq. reflexivity.
Qed.

Lemma stopped_key_iff (e : KeyboardEvent) :
  negb ((key e =? "Meta") || metaKey e) || ((key e =? "z") && metaKey e) = true
  <-> ~ (key e = "Meta" \/ metaKey e = true) \/ (key e = "z" /\ metaKey e = true).
Proof using Type.
  rewrite orb_true_iff, andb_true_iff, negb_true_iff, orb_false_iff, String.eqb_eq.
  rewrite String.eqb_neq.
  destruct (metaKey e); split.
  - intros [[_ H]|[H _]]; [discriminate H | right; split; [exact H | reflexivity]].
  - intros [H|[H _]];
      [exfalso; apply H; right; reflexivity | right; split; [exact H | reflexivity]].
  - intros [[H _]|[_ H]];
      [left; intros [K|K]; [exact (H K) | discriminate K] | discriminate H].
  - intros [H|[_ H]];
      [left; split; [intros K; apply H; left; exact K | reflexivity] | discriminate H].
Qed.

Lemma handleKeyDown_undo_redo_eq (p : TextLabelProps) (e : KeyboardEvent) (w : World) :
  key e = "z" -> metaKey e = true ->
  handleKeyDown p e w =
    (Normal tt,
     set_calls
       (calls w ++ [call_execCommand (if shiftKey e then "redo" else "undo");
                    call_stopPropagation; call_preventDefault]) w).
Proof.
  destruct e as [k m c s]; destruct w as [ri rm rw ae fr cs]; cbn.
  intros -> ->. destruct s; step_handler; cbn; tidy_log; reflexivity.
Qed.

(** C2, amended.  A keydown has its propagation stopped unless the key is
    Meta itself or the Meta modifier is held with a key other than z:
    all those pass through, whatever the key.  Meta+z and Meta+Shift+z
    do not pass through: the handler runs the undo or redo command
    itself, stops the propagation and prevents the default. *)
Theorem keydown_propagation (p : TextLabelProps) (e : KeyboardEvent) (w : World) :
  (In call_stopPropagation (emitted (handleKeyDown p e) w)
   <-> ~ (key e = "Meta" \/ metaKey e = true) \/ (key e = "z" /\ metaKey e = true))
  /\ (key e = "z" -> metaKey e = true ->
      emitted (handleKeyDown p e) w
        = [call_execCommand (if shiftKey e then "redo" else "undo");
           call_stopPropagation; call_preventDefault]).
Proof.
  split.
  - rewrite <- stopped_key_iff. apply In_count, stopPropagation_count.
  - intros K Mt. apply emitted_from_calls.
    unfold exec. rewrite (handleKeyDown_undo_redo_eq p e w K Mt). reflexivity.
Qed.

(** C3, amended.  While the key event is handled, Escape pressed in the
    textarea that has the focus calls [blur()] once and the blur callback,
    when the parent gave one, once.  (What the effect calls at a later
    render is not counted here.) *)
Theorem Escape_triggers_blur_once (p : TextLabelProps) (e : KeyboardEvent)
    (w : World) (el : HTMLTextAreaElement) (f : Callback) :
  key e = "Escape" ->
  rInput w = Some el ->
  activeElement w = true ->
  onBlur p = Some f ->
  count_occ Call_eq_dec (emitted (handleKeyDown p e) w) (call_onBlur f) = 1
  /\ count_occ Call_eq_dec (emitted (handleKeyDown p e) w) call_blur = 1.
Proof.
  intros K R A B.
  assert (E : emitted (handleKeyDown p e) w
              = (if metaKey e then [] else [call_stopPropagation])
                  ++ [call_blur; call_setSelectionRange 0 0; call_onBlur f]).
  { apply emitted_from_calls. unfold exec.
    rewrite (handleKeyDown_Escape_eq p e w el K R A), B. reflexivity. }
  rewrite E.
  split; destruct (metaKey e); cbn [app count_occ];
    repeat (destruct (Call_eq_dec _ _) as [?|?]; try discriminate);
    congruence.
Qed.

(** C4.  [blur()] is called on the textarea exactly for Escape and for
    Enter with Ctrl or Meta; for these keys the textarea does not have
    the focus afterwards, for all other keys the focus is where it was. *)
Theorem blur_exactly_on_exit_keys (p : TextLabelProps) (e : KeyboardEvent) (w : World) :
  let exits := key e = "Escape"
               \/ (key e = "Enter" /\ (ctrlKey e = true \/ metaKey e = true)) in
  (In call_blur (emitted (handleKeyDown p e) w) <-> exits)
  /\ (exits -> activeElement (exec (handleKeyDown p e) w) = false)
  /\ (~ exits -> activeElement (exec (handleKeyDown p e) w) = activeElement w).
Proof.
  cbv zeta. rewrite <- exit_key_iff, activeElement_after_keydown.
  split; [apply In_count, blur_count|].
  destruct ((key e =? "Escape") || ((key e =? "Enter") && (ctrlKey e || metaKey e)));
    split; intros; try congruence; cbn; auto using andb_false_r, andb_true_r.
Qed.

(** C5.  Tab: the default is prevented, [TextAreaUtils.indent] is applied
    to the textarea ([TextAreaUtils.unindent] with Shift), and [onChange]
    gets the normalization of the value the textarea has afterwards. *)
Theorem Tab_indents_and_forwards (p : TextLabelProps) (e : KeyboardEvent)
    (w : World) (el : HTMLTextAreaElement) :
  key e = "Tab" ->
  rInput w = Some el ->
  let el' := if shiftKey e then unindent el else indent el in
  fst (handleKeyDown p e w) = Normal tt
  /\ rInput (exec (handleKeyDown p e) w) = Some el'
  /\ emitted (handleKeyDown p e) w
     = (if metaKey e then [] else [call_stopPropagation])
         ++ [call_preventDefault;
             if shiftKey e then call_unindent else call_indent;
             call_onChange (onChange p) (normalizeText (value el'))].
Proof.
  intros K R el'. pose proof (handleKeyDown_Tab_eq p e w el K R) as E.
  cbv zeta in E. fold el' in E.
  split; [rewrite E; reflexivity|].
  split; [unfold exec; rewrite E; reflexivity|].
  apply emitted_from_calls. unfold exec. rewrite E. reflexivity.
Qed.

(** C8.  The blur handler sets the selection range to (0, 0) and calls
    [onBlur] when the parent gave one; without one it calls nothing and
    completes all the same. *)
Theorem blur_collapses_selection_and_notifies (p : TextLabelProps) (w : World)
    (el : HTMLTextAreaElement) :
  rInput w = Some el ->
  fst (handleBlur p w) = Normal tt
  /\ rInput (exec (handleBlur p) w) = Some (mkTextArea (value el) 0 0)
  /\ emitted (handleBlur p) w
     = call_setSelectionRange 0 0 ::
         match onBlur p with Some f => [call_onBlur f] | None => [] end.
Proof.
  intros R. pose proof (handleBlur_eq p w el R) as E.
  split; [rewrite E; reflexivity|].
  split; [unfold exec; rewrite E; reflexivity|].
  apply emitted_from_calls. unfold exec. rewrite E. reflexivity.
Qed.

(** *** Rendering *)

Ltac step_render :=
  cbv [render firstRender reRender updateInnerWrapper mountTextArea
       unmountTextArea];
  step_handler.

Lemma option_is_eqb_refl (o : option bool) : option_is Bool.eqb o o = true.
Proof. destruct o as [[]|]; reflexivity. Qed.

Lemma option_is_nat_refl (o : option nat) : option_is Nat.eqb o o = true.
Proof. destruct o; simpl; auto using Nat.eqb_refl. Qed.

Lemma Object_is_false (x y : number) : x <> y -> Object_is x y = false.
Proof. unfold Object_is; destruct (number_eq_dec x y); congruence. Qed.

Lemma Object_is_refl (x : number) : Object_is x x = true.
Proof. unfold Object_is; destruct (number_eq_dec x x); congruence. Qed.

Lemma option_is_number_refl (o : option number) : option_is Object_is o o = true.
Proof. destruct o; simpl; auto using Object_is_refl. Qed.

Lemma isEditing_differs (q p : TextLabelProps) :
  isEditing_ q <> isEditing_ p ->
  propsAreEqual q p = false /\ editingDepsEqual q p = false.
Proof.
  unfold propsAreEqual, editingDepsEqual, isEditing_.
  destruct (isEditing q) as [[]|], (isEditing p) as [[]|]; cbn; intros H;
    try congruence; rewrite ?andb_false_r; auto.
Qed.

Lemma layout_differs (q p : TextLabelProps) (env : RenderEnv) :
  scale_ p <> scale_ q \/ offsetX_ p <> offsetX_ q \/ offsetY_ p <> offsetY_ q ->
  propsAreEqual q p = false /\ layoutDepsEqual env q p = false.
Proof.
  unfold propsAreEqual, layoutDepsEqual, scale_, offsetX_, offsetY_.
  intros [H|[H|H]].
  - assert (F : option_is Object_is (scale q) (scale p) = false).
    { destruct (scale q), (scale p); cbn; auto; try apply Object_is_false; congruence. }
    assert (G : Object_is (scale_ q) (scale_ p) = false)
      by (apply Object_is_false; unfold scale_; congruence).
    unfold scale_ in G. rewrite F, G, ?andb_false_r. auto.
  - assert (F : option_is Object_is (offsetX q) (offsetX p) = false).
    { destruct (offsetX q), (offsetX p); cbn; auto; try apply Object_is_false; congruence. }
    assert (G : Object_is (offsetX_ q) (offsetX_ p) = false)
      by (apply Object_is_false; unfold offsetX_; congruence).
    unfold offsetX_ in G. rewrite F, G, ?andb_false_r. auto.
  - assert (F : option_is Object_is (offsetY q) (offsetY p) = false).
    { destruct (offsetY q), (offsetY p); cbn; auto; try apply Object_is_false; congruence. }
    assert (G : Object_is (offsetY_ q) (offsetY_ p) = false)
      by (apply Object_is_false; unfold offsetY_; congruence).
    unfold offsetY_ in G. rewrite F, G, ?andb_false_r. auto.
Qed.

Lemma render_leaving_edit_eq (q p : TextLabelProps) (env : RenderEnv) (w : World) :
  isEditing_ q = true -> isEditing_ p = false ->
  fst (render (Some q) p env w) = Normal tt
  /\ calls (exec (render (Some q) p env) w)
     = calls w ++ match onBlur p with Some f => [call_onBlur f] | None => [] end.
Proof.
  intros Q P.
  destruct (isEditing_differs q p) as [E1 E2]; [congruence|].
  destruct w as [ri rm rw ae fr cs].
  unfold render, reRender, editingEffect. rewrite E1, E2, Q, P.
  destruct (layoutDepsEqual env q p), rw, (onBlur p) eqn:B;
    step_render; rewrite ?B; cbn; rewrite ?app_nil_r; auto.
Qed.

Lemma render_entering_edit_eq (q p : TextLabelProps) (env : RenderEnv) (w : World) :
  isEditing_ q = false -> isEditing_ p = true ->
  fst (render (Some q) p env w) = Normal tt
  /\ frames (exec (render (Some q) p env) w) = frames w ++ [FocusAndSelect]
  /\ count_occ Call_eq_dec (emitted (render (Some q) p env) w)
       call_requestAnimationFrame = 1
  /\ rInput (exec (render (Some q) p env) w) <> None.
Proof.
  intros Q P.
  destruct (isEditing_differs q p) as [E1 E2]; [congruence|].
  destruct w as [ri rm rw ae fr cs].
  unfold render, reRender, editingEffect, handleFocus. rewrite E1, E2, Q, P.
  destruct (layoutDepsEqual env q p), rw, ae, rm;
    step_render; cbn; tidy_log; repeat split; congruence.
Qed.

Lemma frameCallback_Some (p : TextLabelProps) (w : World) (el : HTMLTextAreaElement) :
  rInput w = Some el ->
  let w' := exec (frameCallback p) w in
  rInput w' = Some (mkTextArea (value el) 0 (String.length (value el)))
  /\ activeElement w' = true /\ rIsMounted w' = true /\ frames w' = frames w.
Proof.
  destruct w as [ri rm rw ae fr cs]; cbn [rInput]; intros ->.
  unfold frameCallback, handleFocus.
  destruct (isEditing_ p), ae; step_handler; cbn; auto.
Qed.

Lemma frameCallback_None (p : TextLabelProps) (w : World) :
  rInput w = None ->
  exec (frameCallback p) w = set_rIsMounted true w.
Proof.
  destruct w as [ri rm rw ae fr cs]; cbn [rInput]; intros ->. reflexivity.
Qed.

Lemma runRequests_Some (p : TextLabelProps) (l : list FrameRequest) :
  forall (w : World) (el : HTMLTextAreaElement),
    l <> [] -> rInput w = Some el ->
    let w' := runRequests p l w in
    rInput w' = Some (mkTextArea (value el) 0 (String.length (value el)))
    /\ activeElement w' = true /\ rIsMounted w' = true /\ frames w' = frames w.
Proof.
  induction l as [|[] l IH]; intros w el NE R; [congruence|].
  destruct (frameCallback_Some p w el R) as (R1 & A1 & M1 & F1).
  destruct l as [|r l'].
  - cbn [runRequests]. auto.
  - assert (NE' : r :: l' <> []) by discriminate.
    destruct (IH _ _ NE' R1) as (R2 & A2 & M2 & F2).
    cbv zeta. change (runRequests p (FocusAndSelect :: r :: l') w)
      with (runRequests p (r :: l') (exec (frameCallback p) w)).
    cbn [value] in R2. rewrite R2, A2, M2, F2, F1. auto.
Qed.

Lemma runRequests_None (p : TextLabelProps) (l : list FrameRequest) :
  forall w : World,
    l <> [] -> rInput w = None ->
    runRequests p l w = set_rIsMounted true w.
Proof.
  induction l as [|[] l IH]; intros w NE R; [congruence|].
  cbn [runRequests]. rewrite (frameCallback_None p w R).
  destruct l as [|r l']; [reflexivity|].
  rewrite IH; [destruct w; reflexivity | discriminate | destruct w; exact R].
Qed.

(** C6.  A render in which the editing flag goes from false to true
    requests one animation frame for the focus-and-select function; and
    when the frame comes, that function focuses the textarea and selects
    all of its value if the textarea is there, and touches no element if
    it is not. *)
Theorem entering_edit_schedules_focus_and_select :
  (forall (q p : TextLabelProps) (env : RenderEnv) (w : World),
      isEditing_ q = false -> isEditing_ p = true ->
      frames (exec (render (Some q) p env) w) = frames w ++ [FocusAndSelect]
      /\ count_occ Call_eq_dec (emitted (render (Some q) p env) w)
           call_requestAnimationFrame = 1)
  /\ (forall (p : TextLabelProps) (w : World),
        frames w <> [] ->
        let w' := animationFrame p w in
        frames w' = [] /\ rIsMounted w' = true
        /\ match rInput w with
           | Some el =>
               rInput w' = Some (mkTextArea (value el) 0 (String.length (value el)))
               /\ activeElement w' = true
           | None => w' = set_frames [] (set_rIsMounted true w)
           end).
Proof.
  split.
  - intros q p env w Q P.
    destruct (render_entering_edit_eq q p env w Q P) as (_ & F & C & _). auto.
  - intros p w NE. unfold animationFrame.
    destruct (rInput w) as [el|] eqn:R.
    + destruct (runRequests_Some p (frames w) (set_frames [] w) el NE)
        as (R1 & A1 & M1 & F1); [destruct w; exact R|].
      cbv zeta. rewrite R1, A1, M1, F1. destruct w; auto.
    + cbv zeta. rewrite runRequests_None; [|exact NE|destruct w; exact R].
      destruct w; cbn; auto.
Qed.

(** C7.  A render in which only the scale or the offsets change writes
    the transform (scale, then translate), the width and the height of
    the inner wrapper, and nothing else: the other style entries and the
    children of the wrapper, the textarea, the refs, the focus and the
    pending frames stay, and no callback is called. *)
Theorem layout_change_updates_transform_only (q : TextLabelProps)
    (s x y : option number) (env : RenderEnv) (w : World) (elm : HTMLDivElement) :
  let p := withLayout q s x y in
  rInnerWrapper w = Some elm ->
  scale_ p <> scale_ q \/ offsetX_ p <> offsetX_ q \/ offsetY_ p <> offsetY_ q ->
  render (Some q) p env w =
    (Normal tt,
     set_rInnerWrapper (Some
       (mkDiv (style_font elm) (style_color elm)
          ("scale(" ++ Number_toString (scale_ p) ++ ", "
             ++ Number_toString (scale_ p) ++ ") translate("
             ++ Number_toString (offsetX_ p) ++ "px, "
             ++ Number_toString (offsetY_ p) ++ "px)")%string
          (Number_toString (fst (getTextLabelSize (text q) (font q))) ++ "px")%string
          (Number_toString (snd (getTextLabelSize (text q) (font q))) ++ "px")%string
          (children elm))) w).
Proof.
  intros p W D.
  destruct (layout_differs q p env D) as [E1 E2].
  assert (E3 : editingDepsEqual q p = true).
  { unfold editingDepsEqual, isEditing_, p; cbn.
    rewrite option_is_nat_refl, andb_true_r. apply Bool.eqb_reflx. }
  assert (I : isEditing_ p = isEditing_ q) by reflexivity.
  unfold render, reRender, updateInnerWrapper, layoutEffect, color.
  rewrite E1, E2, E3, !I.
  destruct w as [ri rm rw ae fr cs]; cbn [rInnerWrapper] in W; subst rw.
  destruct elm as [sf sc st sw sh ch].
  destruct (isEditing_ q); step_handler; cbn;
    rewrite !String.eqb_refl; cbn; reflexivity.
Qed.

(** C10.  A render in which the editing flag goes from true to false
    calls [onBlur] when the parent gave one, from the effect: no
    [blur()] and no blur handler is involved. *)
Theorem leaving_edit_calls_onBlur (q p : TextLabelProps) (env : RenderEnv) (w : World) :
  isEditing_ q = true -> isEditing_ p = false ->
  fst (render (Some q) p env w) = Normal tt
  /\ emitted (render (Some q) p env) w
     = match onBlur p with Some f => [call_onBlur f] | None => [] end.
Proof.
  intros Q P. destruct (render_leaving_edit_eq q p env w Q P) as [N C].
  split; [exact N | apply emitted_from_calls, C].
Qed.

(** ** Further properties of the handlers *)

Lemma preventDefault_count (p : TextLabelProps) (e : KeyboardEvent) (w : World) :
  count_occ Call_eq_dec (emitted (handleKeyDown p e) w) call_preventDefault
  = if (key e =? "Tab") || ((key e =? "z") && metaKey e) then 1 else 0.
Proof.
  destruct e as [k m c s]; destruct w as [ri rm rw ae fr cs].
  split_key k; destruct m, c, s, ri, ae, (onBlur p) eqn:B;
    step_handler; cbn; rewrite ?B; cbn; tidy_log; reflexivity.
Qed.

(** The default action of a key is prevented for Tab and for Meta+z, once,
    and for no other key: typing, Enter, Escape and the other shortcuts
    keep their default. *)
Theorem preventDefault_exactly_on_Tab_and_undo (p : TextLabelProps)
    (e : KeyboardEvent) (w : World) :
  (In call_preventDefault (emitted (handleKeyDown p e) w)
   <-> key e = "Tab" \/ (key e = "z" /\ metaKey e = true))
  /\ count_occ Call_eq_dec (emitted (handleKeyDown p e) w) call_preventDefault <= 1.
Proof.
  pose proof (preventDefault_count p e w) as C.
  split.
  - rewrite (In_count _ _ _ C).
    rewrite orb_true_iff, andb_true_iff, !String.eqb_eq. reflexivity.
  - rewrite C. destruct ((key e =? "Tab") || ((key e =? "z") && metaKey e)); lia.
Qed.

(** Among the keys the handler deals with itself, only Tab changes the
    text: for every key other than Tab and Meta+z the value of the
    textarea is what it was and [onChange] is not called, whatever the
    modifiers.  (Meta+z is left to the browser's undo and redo.) *)
Theorem only_Tab_changes_the_text (p : TextLabelProps) (e : KeyboardEvent)
    (w : World) (f : Callback) (s : string) :
  key e <> "Tab" ->
  ~ (key e = "z" /\ metaKey e = true) ->
  ~ In (call_onChange f s) (emitted (handleKeyDown p e) w)
  /\ option_map value (rInput (exec (handleKeyDown p e) w))
     = option_map value (rInput w).
Proof.
  intros NT NZ. rewrite (count_occ_not_In Call_eq_dec).
  destruct e as [k m c sh]; destruct w as [ri rm rw ae fr cs];
    cbn [key metaKey] in NT, NZ.
  split_key k; destruct m, c, sh, ri, ae, (onBlur p) eqn:B;
    try (exfalso; apply NZ; split; [assumption | reflexivity]);
    step_handler; cbn; rewrite ?B; cbn; tidy_log; split; reflexivity.
Qed.

(** A key that is neither an exit key, nor Tab, nor Meta+z changes nothing:
    the handler stops its propagation, unless Meta is involved, and that
    is all. *)
Theorem ordinary_key_changes_nothing (p : TextLabelProps) (e : KeyboardEvent)
    (w : World) :
  key e <> "Escape" ->
  key e <> "Tab" ->
  (key e = "Enter" -> ctrlKey e = false /\ metaKey e = false) ->
  (key e = "z" -> metaKey e = false) ->
  handleKeyDown p e w
  = (Normal tt,
     if (key e =? "Meta") || metaKey e then w
     else set_calls (calls w ++ [call_stopPropagation]) w).
Proof.
  intros NE NT EN ZM.
  destruct e as [k m c s]; destruct w as [ri rm rw ae fr cs];
    cbn [key ctrlKey metaKey] in *.
  split_key k.
  - destruct m, c; step_handler; reflexivity.
  - match goal with H : k = "z" |- _ => rewrite (ZM H) end.
    destruct c; step_handler; reflexivity.
  - match goal with H : k = "Enter" |- _ => destruct (EN H) as [-> ->] end.
    step_handler; reflexivity.
  - destruct m, c; step_handler; reflexivity.
Qed.

(** ** Further properties of rendering *)

Lemma Object_is_true (x y : number) : Object_is x y = true -> x = y.
Proof. unfold Object_is; destruct (number_eq_dec x y); [auto | discriminate]. Qed.

Lemma option_is_nat_true (a b : option nat) : option_is Nat.eqb a b = true -> a = b.
Proof.
  destruct a, b; simpl; intros H; try discriminate; auto.
  apply Nat.eqb_eq in H; congruence.
Qed.

Lemma option_is_number_true (d : number) (a b : option number) :
  option_is Object_is a b = true ->
  match a with Some x => x | None => d end = match b with Some x => x | None => d end.
Proof.
  destruct a, b; simpl; intros H; try discriminate; auto using Object_is_true.
Qed.

Lemma propsAreEqual_true (q p : TextLabelProps) :
  propsAreEqual q p = true ->
  font q = font p /\ text q = text p
  /\ scale_ q = scale_ p /\ offsetX_ q = offsetX_ p /\ offsetY_ q = offsetY_ p.
Proof.
  unfold propsAreEqual. rewrite !andb_true_iff.
  intros ((((((((F & T) & _) & _) & _) & Y) & X) & S) & _).
  apply String.eqb_eq in F, T.
  repeat split; auto; unfold scale_, offsetX_, offsetY_;
    auto using option_is_number_true.
Qed.

Lemma onBlur_differs (q p : TextLabelProps) :
  onBlur q <> onBlur p ->
  propsAreEqual q p = false /\ editingDepsEqual q p = false.
Proof.
  intros H.
  assert (F : option_is Nat.eqb (onBlur q) (onBlur p) = false).
  { destruct (option_is Nat.eqb (onBlur q) (onBlur p)) eqn:E; [|reflexivity].
    apply option_is_nat_true in E. contradiction. }
  unfold propsAreEqual, editingDepsEqual. rewrite F, ?andb_false_r. auto.
Qed.

(** The first render.  Shown without editing, the label calls [onBlur]
    (when given) although nothing ever had the focus, and requests no
    frame; shown editing, it mounts the textarea with the text as its
    value, gives it the focus, requests one frame and does not call
    [onBlur]. *)
Theorem first_render (p : TextLabelProps) (env : RenderEnv) (w : World) :
  rIsMounted w = false -> activeElement w = false ->
  (isEditing_ p = false ->
     emitted (render None p env) w
       = match onBlur p with Some f => [call_onBlur f] | None => [] end
     /\ frames (exec (render None p env) w) = frames w
     /\ rInput (exec (render None p env) w) = rInput w)
  /\ (isEditing_ p = true ->
        emitted (render None p env) w = [call_focus; call_requestAnimationFrame]
        /\ frames (exec (render None p env) w) = frames w ++ [FocusAndSelect]
        /\ option_map value (rInput (exec (render None p env) w)) = Some (text p)
        /\ activeElement (exec (render None p env) w) = true).
Proof.
  destruct w as [ri rm rw ae fr cs]; cbn [rIsMounted activeElement].
  intros -> ->.
  unfold render, firstRender, editingEffect, handleFocus.
  split; intros ->.
  - destruct (onBlur p) eqn:B; step_render; cbn; rewrite ?B; cbn; tidy_log; auto.
  - step_render; cbn; tidy_log; auto.
Qed.

(** A render that changes neither the editing flag nor the [onBlur]
    callback calls nothing and requests nothing, whatever else changed:
    the focus stays, the textarea is mounted or not as before, and if the
    text is the same too, the textarea with its value and selection is
    what it was. *)
Theorem rerender_with_same_effect_deps (q p : TextLabelProps) (env : RenderEnv)
    (w : World) :
  isEditing_ q = isEditing_ p -> onBlur q = onBlur p ->
  emitted (render (Some q) p env) w = []
  /\ frames (exec (render (Some q) p env) w) = frames w
  /\ mounted (exec (render (Some q) p env) w) = mounted w
  /\ activeElement (exec (render (Some q) p env) w) = activeElement w
  /\ (text q = text p -> rInput (exec (render (Some q) p env) w) = rInput w).
Proof.
  intros I B.
  assert (E : editingDepsEqual q p = true).
  { unfold editingDepsEqual. rewrite I, B, option_is_nat_refl, andb_true_r.
    apply Bool.eqb_reflx. }
  destruct w as [ri rm rw ae fr cs].
  unfold render, reRender. rewrite E, I.
  destruct (propsAreEqual q p), (isEditing_ p), (layoutDepsEqual env q p), rw;
    step_render; cbn; tidy_log; auto.
Qed.

(** The effect depends on the identity of [onBlur]: a render that brings
    another [onBlur] while the editing flag stays runs it again.  Not
    editing, the new callback is called; editing, one more frame is
    requested, which will focus the textarea and select all of its text
    again. *)
Theorem rerender_with_new_onBlur (q p : TextLabelProps) (env : RenderEnv) (w : World) :
  isEditing_ q = isEditing_ p -> onBlur q <> onBlur p ->
  emitted (render (Some q) p env) w
    = (if isEditing_ p then [call_requestAnimationFrame]
       else match onBlur p with Some f => [call_onBlur f] | None => [] end)
  /\ frames (exec (render (Some q) p env) w)
     = frames w ++ (if isEditing_ p then [FocusAndSelect] else []).
Proof.
  intros I B. destruct (onBlur_differs q p B) as [E1 E2].
  destruct w as [ri rm rw ae fr cs].
  unfold render, reRender, editingEffect. rewrite E1, E2, I.
  destruct (isEditing_ p), (layoutDepsEqual env q p), rw, (onBlur p) eqn:Bp;
    step_render; cbn; rewrite ?Bp; cbn; tidy_log; rewrite ?app_nil_r; auto.
Qed.

(** The layout effect keeps the inner wrapper in step with the props: if
    the wrapper carried the transform and the size of the previous render,
    and [getTextLabelSize] returns a new array whenever the size differs,
    then after any render the wrapper carries the transform and the size
    of that render, also when the render is skipped by [React.memo] or the
    layout effect is not run. *)
Theorem layout_stays_in_sync (prev : option TextLabelProps) (p : TextLabelProps)
    (env : RenderEnv) (w : World) :
  match prev with
  | None => True
  | Some q => layout_in_sync q w /\ (sizeIsNew env = false -> size p = size q)
  end ->
  layout_in_sync p (exec (render prev p env) w).
Proof.
  destruct w as [ri rm rw ae fr cs].
  destruct prev as [q|].
  - intros [S Z]. unfold layout_in_sync in S; cbn [rInnerWrapper] in S.
    destruct rw as [elm|]; [|contradiction]. destruct S as (St & Sw & Sh).
    unfold render, reRender.
    destruct (propsAreEqual q p) eqn:PE.
    + destruct (propsAreEqual_true q p PE) as (F & T & Sc & X & Y).
      unfold layout_in_sync, transform, size; cbn.
      rewrite <- Sc, <- X, <- Y, <- F, <- T. auto.
    + destruct (layoutDepsEqual env q p) eqn:LE.
      * unfold layoutDepsEqual in LE. rewrite !andb_true_iff in LE.
        destruct LE as (((N & Y) & X) & Sc).
        apply negb_true_iff in N. apply Object_is_true in Y, X, Sc.
        specialize (Z N).
        assert (G : layout_in_sync p (mkWorld ri rm (Some elm) ae fr cs)).
        { unfold layout_in_sync, transform; cbn.
          rewrite <- Sc, <- X, <- Y, Z. auto. }
        unfold layout_in_sync in G |- *; cbn [rInnerWrapper] in G.
        unfold editingEffect, handleFocus.
        destruct (isEditing_ q), (isEditing_ p), (editingDepsEqual q p), ae, rm,
          (onBlur p) eqn:B; step_render; cbn; rewrite ?B; cbn; exact G.
      * unfold layout_in_sync, editingEffect, handleFocus.
        destruct (isEditing_ q), (isEditing_ p), (editingDepsEqual q p), ae, rm,
          (onBlur p) eqn:B; step_render; cbn; rewrite ?B; cbn; auto.
  - intros _. unfold render, firstRender, layout_in_sync, editingEffect, handleFocus.
    destruct (isEditing_ p), ae, rm, (onBlur p) eqn:B;
      step_render; cbn; rewrite ?B; cbn; auto.
Qed.

(** ** Properties of sessions *)

Lemma runRequests_keeps (p : TextLabelProps) (l : list FrameRequest) :
  forall w : World,
    mounted (runRequests p l w) = mounted w
    /\ rInnerWrapper (runRequests p l w) = rInnerWrapper w
    /\ (implb (activeElement w) (mounted w) = true ->
        implb (activeElement (runRequests p l w)) (mounted w) = true)
    /\ (rIsMounted w = true -> rIsMounted (runRequests p l w) = true).
Proof.
  induction l as [|[] l IH]; intros w; cbn [runRequests].
  - auto.
  - destruct (IH (exec (frameCallback p) w)) as (M & W & A & R).
    assert (K : mounted (exec (frameCallback p) w) = mounted w
                /\ rInnerWrapper (exec (frameCallback p) w) = rInnerWrapper w
                /\ (implb (activeElement w) (mounted w) = true ->
                    implb (activeElement (exec (frameCallback p) w)) (mounted w) = true)
                /\ rIsMounted (exec (frameCallback p) w) = true).
    { destruct w as [ri rm rw ae fr cs]. unfold frameCallback, handleFocus, mounted.
      destruct ri, ae, (isEditing_ p); step_handler; cbn; auto. }
    destruct K as (M1 & W1 & A1 & R1).
    rewrite M, W, M1, W1. repeat split; auto.
    intros H. rewrite <- M1. apply A. rewrite M1. auto.
Qed.

Lemma render_consistent (prev : option TextLabelProps) (p : TextLabelProps)
    (env : RenderEnv) (w : World) :
  consistent (mkComponent prev w) = true ->
  consistent (mkComponent (Some p) (exec (render prev p env) w)) = true.
Proof.
  destruct w as [ri rm rw ae fr cs]. unfold consistent, mounted; cbn [rendered world].
  destruct prev as [q|]; unfold render, firstRender, reRender, editingEffect, handleFocus.
  - destruct (propsAreEqual q p) eqn:PE.
    + assert (I : isEditing_ q = isEditing_ p).
      { unfold propsAreEqual in PE. rewrite !andb_true_iff in PE.
        destruct PE as (_ & PE). unfold isEditing_.
        destruct (isEditing q) as [[]|], (isEditing p) as [[]|];
          try discriminate; reflexivity. }
      rewrite I. auto.
    + destruct (isEditing_ q), (isEditing_ p), (layoutDepsEqual env q p),
        (editingDepsEqual q p), ri, rw, ae, rm, (onBlur p) eqn:B;
        cbn; try discriminate; intros _;
        step_render; cbn; rewrite ?B; reflexivity.
  - destruct (isEditing_ p), ri, rw, ae, rm, (onBlur p) eqn:B;
      cbn; try discriminate; intros _;
      step_render; cbn; rewrite ?B; reflexivity.
Qed.

Lemma dispatch_consistent (ev : HostEvent) (c c' : Component) :
  consistent c = true -> dispatch ev c = Some c' -> consistent c' = true.
Proof.
  destruct c as [r w]. destruct ev.
  - cbn [dispatch rendered world]. intros C D. injection D as <-.
    apply render_consistent, C.
  - unfold dispatch, consistent; cbn [rendered world].
    destruct r as [q|]; [|destruct (rInput w); discriminate].
    intros C D.
    assert (c' = mkComponent (Some q) (animationFrame q w))
      by (destruct (rInput w); congruence).
    subst c'. cbn [rendered world]. unfold animationFrame.
    destruct (runRequests_keeps q (frames w) (set_frames [] w)) as (M & W & A & _).
    rewrite M, W.
    assert (E1 : mounted (set_frames [] w) = mounted w) by (destruct w; reflexivity).
    assert (E2 : rInnerWrapper (set_frames [] w) = rInnerWrapper w)
      by (destruct w; reflexivity).
    rewrite E1, E2 in *.
    rewrite !andb_true_iff in C |- *. destruct C as ((C1 & C2) & C3).
    repeat split; auto; apply A; destruct w; exact C2.
  - unfold dispatch, consistent, mounted; cbn [rendered world].
    destruct w as [ri rm rw ae fr cs]; cbn [rInput].
    destruct r as [q|], ri; try discriminate.
    intros C D. injection D as <-. cbn [rendered world].
    destruct (isEditing_ q), ae, rw; cbn in C |- *; try discriminate; reflexivity.
  - unfold dispatch, consistent, mounted; cbn [rendered world].
    destruct w as [ri rm rw ae fr cs]; cbn [rInput activeElement].
    destruct r as [q|], ri, ae; try discriminate.
    intros C D. injection D as <-. cbn [rendered world].
    destruct e as [k m c s].
    split_key k; destruct (isEditing_ q), rw, m, c, s, (onBlur q) eqn:B;
      cbn in C; try discriminate; step_handler; cbn; rewrite ?B; reflexivity.
  - unfold dispatch, consistent, mounted; cbn [rendered world].
    destruct w as [ri rm rw ae fr cs]; cbn [rInput activeElement].
    destruct r as [q|], ri, ae; try discriminate.
    intros C D. injection D as <-. cbn [rendered world].
    destruct (isEditing_ q), rw, (onBlur q) eqn:B;
      cbn in C; try discriminate; step_handler; cbn; rewrite ?B; reflexivity.
  - unfold dispatch, consistent, mounted; cbn [rendered world].
    destruct w as [ri rm rw ae fr cs]; cbn [rInput activeElement].
    destruct r as [q|], ri, ae; try discriminate.
    intros C D. injection D as <-. cbn [rendered world].
    unfold handleFocus.
    destruct (isEditing_ q), rw, rm;
      cbn in C; try discriminate; step_handler; reflexivity.
  - unfold dispatch, consistent, mounted; cbn [rendered world].
    destruct w as [ri rm rw ae fr cs]; cbn [rInput activeElement].
    destruct r as [q|], ri; try discriminate.
    intros C D. injection D as <-. cbn [rendered world].
    unfold handlePointerDown.
    destruct (isEditing_ q), rw, ae;
      cbn in C; try discriminate; step_handler; reflexivity.
Qed.

Lemma run_consistent (evs : list HostEvent) :
  forall c c' : Component,
    consistent c = true -> run evs c = Some c' -> consistent c' = true.
Proof.
  induction evs as [|ev evs IH]; simpl; intros c c' C R.
  - injection R as <-; exact C.
  - destruct (dispatch ev c) as [c1|] eqn:D; [|discriminate].
    eapply IH; [eapply dispatch_consistent; eauto | exact R].
Qed.

(** Whatever the host does with the component, after each event the
    textarea is in the document exactly when the last render was an
    editing one, the focus is on the textarea only if it is there, and the
    inner wrapper is there. *)
Theorem session_keeps_consistent (evs : list HostEvent) (c : Component)
    (p : TextLabelProps) :
  run evs unmounted = Some c ->
  rendered c = Some p ->
  (rInput (world c) <> None <-> isEditing_ p = true)
  /\ (activeElement (world c) = true -> rInput (world c) <> None)
  /\ rInnerWrapper (world c) <> None.
Proof.
  intros R P.
  pose proof (run_consistent evs unmounted c eq_refl R) as C.
  unfold consistent, mounted in C. rewrite P in C.
  destruct (rInput (world c)), (isEditing_ p), (activeElement (world c)),
    (rInnerWrapper (world c)); cbn in C; try discriminate;
    repeat split; intros; congruence.
Qed.

Ltac count_log H :=
  repeat rewrite <- app_assoc; cbn [app];
  rewrite ?count_occ_app, ?H; reflexivity.

Lemma dispatch_before_first_frame (ev : HostEvent) (c c' : Component) :
  ev <> AnimationFrame ->
  dispatch ev c = Some c' ->
  rIsMounted (world c) = false ->
  count_occ Call_eq_dec (calls (world c)) call_select = 0 ->
  rIsMounted (world c') = false
  /\ count_occ Call_eq_dec (calls (world c')) call_select = 0.
Proof.
  destruct c as [r w]; destruct w as [ri rm rw ae fr cs].
  cbn [world rIsMounted calls]. intros NF D -> H.
  destruct ev; try congruence; unfold dispatch in D; cbn [rendered world rInput] in D.
  - injection D as <-. cbn [world].
    destruct r as [q|]; unfold render, firstRender, reRender, editingEffect, handleFocus.
    + destruct (propsAreEqual q p), (isEditing_ q), (isEditing_ p),
        (layoutDepsEqual env q p), (editingDepsEqual q p), rw, ae,
        (onBlur p) eqn:B; step_render; cbn; rewrite ?B; cbn;
        (split; [reflexivity | count_log H]).
    + destruct (isEditing_ p), rw, ae, (onBlur p) eqn:B;
        step_render; cbn; rewrite ?B; cbn; (split; [reflexivity | count_log H]).
  - destruct r as [q|], ri; try discriminate. injection D as <-.
    step_handler; cbn. split; [reflexivity | count_log H].
  - destruct r as [q|], ri; try discriminate.
    cbn [activeElement] in D. destruct ae; try discriminate. injection D as <-.
    cbn [world]. destruct e as [k m c s].
    split_key k; destruct m, c, s, (onBlur q) eqn:B;
      step_handler; cbn; rewrite ?B; cbn; (split; [reflexivity | count_log H]).
  - destruct r as [q|], ri; try discriminate.
    cbn [activeElement] in D. destruct ae; try discriminate. injection D as <-.
    cbn [world]. destruct (onBlur q) eqn:B;
      step_handler; cbn; rewrite ?B; cbn; (split; [reflexivity | count_log H]).
  - destruct r as [q|], ri; try discriminate.
    cbn [activeElement] in D. destruct ae; try discriminate. injection D as <-.
    cbn [world]. unfold handleFocus. destruct (isEditing_ q);
      step_handler; cbn; (split; [reflexivity | count_log H]).
  - destruct r as [q|], ri; try discriminate. injection D as <-.
    cbn [world]. unfold handlePointerDown. destruct (isEditing_ q);
      step_handler; cbn; (split; [reflexivity | count_log H]).
Qed.

(** Until the first animation frame has come, nothing selects the text:
    in a session without a frame, [rIsMounted] is still false and
    [select()] was never called, however often the textarea was mounted or
    got the focus. *)
Theorem no_select_before_first_frame (evs : list HostEvent) (c : Component) :
  ~ In AnimationFrame evs ->
  run evs unmounted = Some c ->
  rIsMounted (world c) = false /\ ~ In call_select (calls (world c)).
Proof.
  rewrite (count_occ_not_In Call_eq_dec).
  assert (G : forall evs c0 c1,
             ~ In AnimationFrame evs -> run evs c0 = Some c1 ->
             rIsMounted (world c0) = false ->
             count_occ Call_eq_dec (calls (world c0)) call_select = 0 ->
             rIsMounted (world c1) = false
             /\ count_occ Call_eq_dec (calls (world c1)) call_select = 0).
  { clear evs c. induction evs as [|ev evs IH]; simpl; intros c0 c1 N R M S.
    - injection R as <-; auto.
    - destruct (dispatch ev c0) as [c2|] eqn:D; [|discriminate].
      assert (NE : ev <> AnimationFrame) by (intros E; apply N; left; auto).
      destruct (dispatch_before_first_frame ev c0 c2 NE D M S) as [M2 S2].
      apply (IH c2 c1); auto. }
  intros N R. apply (G evs unmounted c N R); reflexivity.
Qed.

Lemma dispatch_keeps_rIsMounted (ev : HostEvent) (c c' : Component) :
  dispatch ev c = Some c' ->
  rIsMounted (world c) = true -> rIsMounted (world c') = true.
Proof.
  destruct c as [r w]. destruct ev; unfold dispatch; cbn [rendered world].
  - intros D M. injection D as <-. cbn [world].
    destruct w as [ri rm rw ae fr cs]; cbn [rIsMounted] in M; subst rm.
    destruct r as [q|]; unfold render, firstRender, reRender, editingEffect, handleFocus.
    + destruct (propsAreEqual q p), (isEditing_ q), (isEditing_ p),
        (layoutDepsEqual env q p), (editingDepsEqual q p), rw, ae,
        (onBlur p) eqn:B; step_render; cbn; rewrite ?B; reflexivity.
    + destruct (isEditing_ p), rw, ae, (onBlur p) eqn:B;
        step_render; cbn; rewrite ?B; reflexivity.
  - intros D M.
    assert (exists q, c' = mkComponent (Some q) (animationFrame q w)) as [q ->].
    { destruct r as [q|]; [exists q|]; destruct (rInput w); congruence. }
    cbn [world]. unfold animationFrame.
    apply runRequests_keeps. destruct w; exact M.
  - destruct w as [ri rm rw ae fr cs]; cbn [rInput rIsMounted].
    destruct r as [q|], ri; try discriminate. intros D ->. injection D as <-.
    reflexivity.
  - destruct w as [ri rm rw ae fr cs]; cbn [rInput rIsMounted activeElement].
    destruct r as [q|], ri, ae; try discriminate. intros D ->. injection D as <-.
    cbn [world]. destruct e as [k m c s].
    split_key k; destruct m, c, s, (onBlur q) eqn:B;
      step_handler; cbn; rewrite ?B; reflexivity.
  - destruct w as [ri rm rw ae fr cs]; cbn [rInput rIsMounted activeElement].
    destruct r as [q|], ri, ae; try discriminate. intros D ->. injection D as <-.
    cbn [world]. destruct (onBlur q) eqn:B; step_handler; cbn; rewrite ?B; reflexivity.
  - destruct w as [ri rm rw ae fr cs]; cbn [rInput rIsMounted activeElement].
    destruct r as [q|], ri, ae; try discriminate. intros D ->. injection D as <-.
    cbn [world]. unfold handleFocus. destruct (isEditing_ q); reflexivity.
  - destruct w as [ri rm rw ae fr cs]; cbn [rInput rIsMounted].
    destruct r as [q|], ri; try discriminate. intros D ->. injection D as <-.
    cbn [world]. unfold handlePointerDown. destruct (isEditing_ q); reflexivity.
Qed.

(** [rIsMounted] is never reset: once a frame callback has run it stays
    true through every later event, also through leaving edit mode and
    entering it again. *)
Theorem rIsMounted_is_never_reset (evs : list HostEvent) :
  forall c c' : Component,
    run evs c = Some c' ->
    rIsMounted (world c) = true -> rIsMounted (world c') = true.
Proof.
  induction evs as [|ev evs IH]; simpl; intros c c' R M.
  - injection R as <-; exact M.
  - destruct (dispatch ev c) as [c1|] eqn:D; [|discriminate].
    apply (IH c1 c' R). eapply dispatch_keeps_rIsMounted; eauto.
Qed.

(** So the guard in the focus handler holds back the selection on the
    first entry into edit mode only: entering it again after a frame has
    run, the text is selected as soon as the textarea is mounted, and one
    more frame is requested. *)
Theorem entering_edit_again_selects_at_once (q p : TextLabelProps) (env : RenderEnv)
    (w : World) :
  isEditing_ q = false -> isEditing_ p = true ->
  rIsMounted w = true -> activeElement w = false ->
  emitted (render (Some q) p env) w
    = [call_focus; call_select; call_requestAnimationFrame]
  /\ rInput (exec (render (Some q) p env) w)
     = Some (mkTextArea (text p) 0 (String.length (text p))).
Proof.
  intros Q P M A.
  destruct (isEditing_differs q p) as [E1 E2]; [congruence|].
  destruct w as [ri rm rw ae fr cs]; cbn [rIsMounted activeElement] in M, A; subst.
  unfold render, reRender, editingEffect, handleFocus. rewrite E1, E2, Q, P.
  destruct (layoutDepsEqual env q p), rw; step_render; cbn; tidy_log; auto.
Qed.

(** The guard of the pointer handler never fails where the handler can
    run: in every session, a pointer press on the textarea has its
    propagation stopped, and nothing else happens. *)
Theorem pointer_press_is_always_stopped (evs : list HostEvent) (c c' : Component) :
  run evs unmounted = Some c ->
  dispatch PointerDown c = Some c' ->
  world c' = set_calls (calls (world c) ++ [call_pointer_stopPropagation]) (world c).
Proof.
  intros R D.
  pose proof (run_consistent evs unmounted c eq_refl R) as C.
  destruct c as [r w]; destruct w as [ri rm rw ae fr cs].
  unfold dispatch in D; cbn [rendered world rInput] in D.
  unfold consistent, mounted in C; cbn [rendered world rInput] in C.
  destruct r as [q|], ri; try discriminate. injection D as <-.
  cbn [world]. unfold handlePointerDown.
  destruct (isEditing_ q); [reflexivity | discriminate C].
Qed.

(** When the focus comes back to the textarea after a frame has run, the
    whole text is selected. *)
Theorem focus_regained_selects_all (evs : list HostEvent) (c c' : Component) :
  run evs unmounted = Some c ->
  rIsMounted (world c) = true ->
  dispatch FocusIn c = Some c' ->
  exists el : HTMLTextAreaElement,
    rInput (world c) = Some el
    /\ rInput (world c')
       = Some (mkTextArea (value el) 0 (String.length (value el)))
    /\ activeElement (world c') = true.
Proof.
  intros R M D.
  pose proof (run_consistent evs unmounted c eq_refl R) as C.
  destruct c as [r w]; destruct w as [ri rm rw ae fr cs].
  cbn [world rIsMounted] in M; subst rm.
  unfold dispatch in D; cbn [rendered world rInput activeElement] in D.
  unfold consistent, mounted in C; cbn [rendered world rInput] in C.
  destruct r as [q|], ri as [el|], ae; try discriminate. injection D as <-.
  exists el. cbn [world]. unfold handleFocus.
  destruct (isEditing_ q); [|discriminate C].
  step_handler; cbn. auto.
Qed.

(** ** Leaving edit mode by a key *)

(** Enter with Ctrl or Meta ends the editing like Escape does: on the
    textarea that has the focus, [blur()] is called, the blur handler
    collapses the selection and calls [onBlur], and the value stays.
    With Ctrl the propagation of the key is stopped, with Meta it is not. *)
Theorem mod_Enter_exits (p : TextLabelProps) (e : KeyboardEvent) (w : World)
    (el : HTMLTextAreaElement) :
  key e = "Enter" ->
  ctrlKey e = true \/ metaKey e = true ->
  rInput w = Some el ->
  activeElement w = true ->
  handleKeyDown p e w =
    (Normal tt,
     set_calls
       (calls w
          ++ (if metaKey e then [] else [call_stopPropagation])
          ++ [call_blur; call_setSelectionRange 0 0]
          ++ match onBlur p with Some f => [call_onBlur f] | None => [] end)
       (set_activeElement false (set_rInput (Some (mkTextArea (value el) 0 0)) w))).
Proof.
  destruct e as [k m c s]; destruct w as [ri rm rw ae fr cs]; cbn.
  intros -> CM -> ->.
  destruct m, c, (onBlur p) eqn:B;
    try (destruct CM; discriminate);
    step_handler; cbn; rewrite ?B; cbn; tidy_log; reflexivity.
Qed.

(** Escape and then a render that leaves edit mode: [onBlur] is called
    twice, once by the blur handler and once by the effect. *)
Theorem Escape_then_leaving_edit_calls_onBlur_twice (q p : TextLabelProps)
    (e : KeyboardEvent) (env : RenderEnv) (w : World) (el : HTMLTextAreaElement)
    (f : Callback) :
  key e = "Escape" ->
  rInput w = Some el ->
  activeElement w = true ->
  isEditing_ q = true -> onBlur q = Some f ->
  isEditing_ p = false -> onBlur p = Some f ->
  let w1 := exec (handleKeyDown q e) w in
  count_occ Call_eq_dec
    (emitted (handleKeyDown q e) w ++ emitted (render (Some q) p env) w1)
    (call_onBlur f) = 2.
Proof.
  intros K R A Q Bq P Bp w1.
  assert (E1 : emitted (handleKeyDown q e) w
               = (if metaKey e then [] else [call_stopPropagation])
                   ++ [call_blur; call_setSelectionRange 0 0; call_onBlur f]).
  { apply emitted_from_calls. unfold exec.
    rewrite (handleKeyDown_Escape_eq q e w el K R A), Bq. reflexivity. }
  assert (E2 : emitted (render (Some q) p env) w1 = [call_onBlur f]).
  { apply emitted_from_calls.
    destruct (render_leaving_edit_eq q p env w1 Q P) as [_ C].
    rewrite C, Bp. reflexivity. }
  rewrite E1, E2, !count_occ_app.
  destruct (metaKey e); cbn [count_occ];
    repeat (destruct (Call_eq_dec _ _) as [?|?]; try discriminate);
    first [reflexivity | congruence].
Qed.

End TextLabel.

(** ** The model on concrete inputs

    The theorems above hold for all helpers; below they are applied with
    the stand-ins, numbers being natural numbers. *)

(** An edit of the sample textarea, and the sample session. *)
Lemma onChange_receives_normalized_text_witness :
  rInput sample_world = Some sample_textarea
  /\ emitted (handleChange nat standin_normalizeText (sample_props nat true)) sample_world
     = [call_onChange 8 ("one" ++ String "010" "two")]
  /\ exists c : Component nat,
       run nat 0 1 standin_toString Nat.eq_dec standin_normalizeText
         standin_indent standin_unindent standin_getTextLabelSize
         (sample_session nat) (unmounted nat) = Some c
       /\ Forall (normalized_call standin_normalizeText) (calls (world nat c)).
Proof.
  pose (T := onChange_receives_normalized_text nat 0 1 standin_toString Nat.eq_dec
               standin_normalizeText standin_indent standin_unindent
               standin_getTextLabelSize).
  split; [reflexivity|]. split.
  - exact (proj1 T (sample_props nat true) sample_world sample_textarea eq_refl).
  - eexists. split; [lazy; reflexivity|].
    apply (proj2 T (sample_session nat)). vm_compute; reflexivity.
Defined.

(** C2 as the specification words it fails: Meta+z is the undo shortcut,
    in the exception set, and the handler stops its propagation. *)
Lemma keydown_exception_set_counterexample :
  ~ spec_keydown_propagation nat standin_normalizeText standin_indent standin_unindent.
Proof.
  intros H.
  destruct (H (sample_props nat true) key_undo sample_world) as [H1 _].
  assert (F : spec_exception key_undo = false).
  { apply H1. vm_compute. right; left; reflexivity. }
  vm_compute in F. discriminate F.
Qed.

(** Meta+z is handled and stopped; Meta+b passes through. *)
Lemma keydown_propagation_witness :
  key key_undo = "z" /\ metaKey key_undo = true
  /\ emitted (handleKeyDown nat standin_normalizeText standin_indent standin_unindent (sample_props nat true) key_undo) sample_world
     = [call_execCommand "undo"; call_stopPropagation; call_preventDefault]
  /\ ~ In call_stopPropagation
         (emitted (handleKeyDown nat standin_normalizeText standin_indent standin_unindent (sample_props nat true) key_bold) sample_world).
Proof.
  split; [reflexivity|]. split; [reflexivity|]. split.
  - exact (proj2 (keydown_propagation nat standin_normalizeText standin_indent
                    standin_unindent (sample_props nat true) key_undo sample_world)
             eq_refl eq_refl).
  - intros I.
    apply (proj1 (keydown_propagation nat standin_normalizeText standin_indent
                    standin_unindent (sample_props nat true) key_bold sample_world))
      in I.
    destruct I as [N|[K _]]; [apply N; right; reflexivity | discriminate K].
Defined.

(** C3 as the specification words it fails: after Escape in the sample
    textarea, a render that leaves edit mode calls the blur callback a
    second time. *)
Lemma Escape_blur_once_counterexample :
  ~ spec_Escape_blur_once nat 0 1 standin_toString Nat.eq_dec standin_normalizeText
      standin_indent standin_unindent standin_getTextLabelSize.
Proof.
  intros H.
  specialize (H (sample_props nat true) (sample_props nat false) key_Escape
                (mkRenderEnv false 0) sample_world sample_textarea 7
                eq_refl eq_refl eq_refl eq_refl eq_refl eq_refl).
  vm_compute in H. discriminate H.
Qed.

(** Escape in the sample textarea, which has the focus. *)
Lemma Escape_triggers_blur_once_witness :
  key key_Escape = "Escape"
  /\ rInput sample_world = Some sample_textarea
  /\ activeElement sample_world = true
  /\ onBlur nat (sample_props nat true) = Some 7
  /\ count_occ Call_eq_dec
       (emitted (handleKeyDown nat standin_normalizeText standin_indent standin_unindent (sample_props nat true) key_Escape) sample_world)
       (call_onBlur 7) = 1
  /\ count_occ Call_eq_dec
       (emitted (handleKeyDown nat standin_normalizeText standin_indent standin_unindent (sample_props nat true) key_Escape) sample_world)
       call_blur = 1.
Proof.
  do 4 (split; [reflexivity|]).
  exact (Escape_triggers_blur_once nat standin_normalizeText standin_indent
           standin_unindent (sample_props nat true) key_Escape sample_world
           sample_textarea 7 eq_refl eq_refl eq_refl eq_refl).
Defined.

(** Ctrl+Enter takes the focus away, a letter leaves it. *)
Lemma blur_exactly_on_exit_keys_witness :
  activeElement sample_world = true
  /\ activeElement
       (exec (handleKeyDown nat standin_normalizeText standin_indent standin_unindent (sample_props nat true) key_mod_Enter) sample_world) = false
  /\ activeElement
       (exec (handleKeyDown nat standin_normalizeText standin_indent standin_unindent (sample_props nat true) key_letter) sample_world) = true.
Proof.
  split; [reflexivity|]. split.
  - apply (proj1 (proj2 (blur_exactly_on_exit_keys nat standin_normalizeText
                           standin_indent standin_unindent (sample_props nat true)
                           key_mod_Enter sample_world))).
    right. split; [reflexivity | left; reflexivity].
  - apply (proj2 (proj2 (blur_exactly_on_exit_keys nat standin_normalizeText
                           standin_indent standin_unindent (sample_props nat true)
                           key_letter sample_world))).
    intros [K|[K _]]; discriminate K.
Defined.

(** Tab in the sample textarea. *)
Lemma Tab_indents_and_forwards_witness :
  key (key_Tab false) = "Tab"
  /\ rInput sample_world = Some sample_textarea
  /\ emitted (handleKeyDown nat standin_normalizeText standin_indent standin_unindent (sample_props nat true) (key_Tab false)) sample_world
     = [call_stopPropagation; call_preventDefault; call_indent;
        call_onChange 8 ("  one" ++ String "010" "two")].
Proof.
  split; [reflexivity|]. split; [reflexivity|].
  exact (proj2 (proj2 (Tab_indents_and_forwards nat standin_normalizeText
                         standin_indent standin_unindent (sample_props nat true)
                         (key_Tab false) sample_world sample_textarea
                         eq_refl eq_refl))).
Defined.

(** The blur handler on the sample textarea. *)
Lemma blur_collapses_selection_and_notifies_witness :
  rInput sample_world = Some sample_textarea
  /\ rInput (exec (handleBlur nat (sample_props nat true)) sample_world)
     = Some (mkTextArea ("one" ++ String "013" "two") 0 0)
  /\ emitted (handleBlur nat (sample_props nat true)) sample_world
     = [call_setSelectionRange 0 0; call_onBlur 7].
Proof.
  split; [reflexivity|].
  exact (proj2 (blur_collapses_selection_and_notifies nat (sample_props nat true)
                  sample_world sample_textarea eq_refl)).
Defined.

(** Entering edit mode, and the frame that follows. *)
Lemma entering_edit_schedules_focus_and_select_witness :
  isEditing_ nat (sample_props nat false) = false
  /\ isEditing_ nat (sample_props nat true) = true
  /\ frames (exec (render nat 0 1 standin_toString Nat.eq_dec standin_getTextLabelSize
                     (Some (sample_props nat false)) (sample_props nat true)
                     (mkRenderEnv true 5))
               (mkWorld None false (Some sample_div) false [] []))
     = [FocusAndSelect]
  /\ frames sample_world_pending <> []
  /\ rInput (animationFrame nat (sample_props nat true) sample_world_pending)
     = Some (mkTextArea ("one" ++ String "013" "two") 0 7)
  /\ activeElement (animationFrame nat (sample_props nat true) sample_world_pending)
     = true.
Proof.
  pose (T := entering_edit_schedules_focus_and_select nat 0 1 standin_toString
               Nat.eq_dec standin_getTextLabelSize).
  split; [reflexivity|]. split; [reflexivity|]. split.
  - exact (proj1 (proj1 T (sample_props nat false) (sample_props nat true)
                    (mkRenderEnv true 5)
                    (mkWorld None false (Some sample_div) false [] [])
                    eq_refl eq_refl)).
  - split; [discriminate|].
    assert (N : frames sample_world_pending <> []) by discriminate.
    exact (proj2 (proj2 (proj2 T (sample_props nat true) sample_world_pending N))).
Defined.

(** The scale goes from 1 to 2 and the x offset from 0 to 3. *)
Lemma layout_change_updates_transform_only_witness :
  rInnerWrapper sample_world = Some sample_div
  /\ scale_ nat 1 (withLayout nat (sample_props nat true) (Some 2) (Some 3) None)
     <> scale_ nat 1 (sample_props nat true)
  /\ exec (render nat 0 1 standin_toString Nat.eq_dec standin_getTextLabelSize
             (Some (sample_props nat true))
             (withLayout nat (sample_props nat true) (Some 2) (Some 3) None)
             (mkRenderEnv false 0))
       sample_world
     = set_rInnerWrapper
         (Some (mkDiv "16px sans" "black" "scale(2, 2) translate(3px, 0px)"
                  "40px" "16px" child_TextArea))
         sample_world.
Proof.
  assert (D : scale_ nat 1 (withLayout nat (sample_props nat true) (Some 2) (Some 3) None)
              <> scale_ nat 1 (sample_props nat true)) by (vm_compute; lia).
  split; [reflexivity|]. split; [exact D|].
  unfold exec.
  rewrite (layout_change_updates_transform_only nat 0 1 standin_toString Nat.eq_dec
             standin_getTextLabelSize (sample_props nat true) (Some 2) (Some 3) None
             (mkRenderEnv false 0) sample_world sample_div eq_refl (or_introl D)).
  reflexivity.
Defined.

(** Leaving edit mode by a render. *)
Lemma leaving_edit_calls_onBlur_witness :
  isEditing_ nat (sample_props nat true) = true
  /\ isEditing_ nat (sample_props nat false) = false
  /\ emitted (render nat 0 1 standin_toString Nat.eq_dec standin_getTextLabelSize
                (Some (sample_props nat true)) (sample_props nat false)
                (mkRenderEnv false 0))
       sample_world
     = [call_onBlur 7].
Proof.
  split; [reflexivity|]. split; [reflexivity|].
  exact (proj2 (leaving_edit_calls_onBlur nat 0 1 standin_toString Nat.eq_dec
                  standin_getTextLabelSize (sample_props nat true)
                  (sample_props nat false) (mkRenderEnv false 0) sample_world
                  eq_refl eq_refl)).
Defined.

(** ** The further properties on concrete inputs *)

(** Tab has its default prevented. *)
Lemma preventDefault_exactly_on_Tab_and_undo_witness :
  key (key_Tab true) = "Tab"
  /\ In call_preventDefault
       (emitted (handleKeyDown nat standin_normalizeText standin_indent
                   standin_unindent (sample_props nat true) (key_Tab true))
          sample_world).
Proof.
  split; [reflexivity|].
  apply (proj1 (preventDefault_exactly_on_Tab_and_undo nat standin_normalizeText
                  standin_indent standin_unindent (sample_props nat true)
                  (key_Tab true) sample_world)).
  left; reflexivity.
Defined.

(** Escape leaves the text alone. *)
Lemma only_Tab_changes_the_text_witness :
  key key_Escape <> "Tab"
  /\ ~ (key key_Escape = "z" /\ metaKey key_Escape = true)
  /\ option_map value
       (rInput (exec (handleKeyDown nat standin_normalizeText standin_indent
                        standin_unindent (sample_props nat true) key_Escape)
                  sample_world))
     = Some ("one" ++ String "013" "two").
Proof.
  assert (N : key key_Escape <> "Tab") by discriminate.
  assert (Z : ~ (key key_Escape = "z" /\ metaKey key_Escape = true))
    by (intros [K _]; discriminate K).
  split; [exact N|]. split; [exact Z|].
  exact (proj2 (only_Tab_changes_the_text nat standin_normalizeText standin_indent
                  standin_unindent (sample_props nat true) key_Escape sample_world
                  8 "x" N Z)).
Defined.

(** The letter x. *)
Lemma ordinary_key_changes_nothing_witness :
  key key_letter <> "Escape" /\ key key_letter <> "Tab"
  /\ exec (handleKeyDown nat standin_normalizeText standin_indent standin_unindent
             (sample_props nat true) key_letter) sample_world
     = set_calls [call_focus; call_stopPropagation] sample_world.
Proof.
  assert (N1 : key key_letter <> "Escape") by discriminate.
  assert (N2 : key key_letter <> "Tab") by discriminate.
  assert (N3 : key key_letter = "Enter" ->
               ctrlKey key_letter = false /\ metaKey key_letter = false)
    by (intros; split; reflexivity).
  assert (N4 : key key_letter = "z" -> metaKey key_letter = false)
    by (intros; reflexivity).
  split; [exact N1|]. split; [exact N2|].
  unfold exec.
  rewrite (ordinary_key_changes_nothing nat standin_normalizeText standin_indent
             standin_unindent (sample_props nat true) key_letter sample_world
             N1 N2 N3 N4).
  reflexivity.
Defined.

(** The label shown for the first time, not editing. *)
Lemma first_render_witness :
  rIsMounted sample_world_fresh = false /\ activeElement sample_world_fresh = false
  /\ isEditing_ nat (sample_props nat false) = false
  /\ emitted (render nat 0 1 standin_toString Nat.eq_dec standin_getTextLabelSize
                None (sample_props nat false) (mkRenderEnv true 0))
       sample_world_fresh
     = [call_onBlur 7].
Proof.
  do 3 (split; [reflexivity|]).
  exact (proj1 (proj1 (first_render nat 0 1 standin_toString Nat.eq_dec
                         standin_getTextLabelSize (sample_props nat false)
                         (mkRenderEnv true 0) sample_world_fresh eq_refl eq_refl)
                  eq_refl)).
Defined.

(** A change of the scale while editing. *)
Lemma rerender_with_same_effect_deps_witness :
  isEditing_ nat (sample_props nat true)
    = isEditing_ nat (withLayout nat (sample_props nat true) (Some 2) None None)
  /\ emitted (render nat 0 1 standin_toString Nat.eq_dec standin_getTextLabelSize
                (Some (sample_props nat true))
                (withLayout nat (sample_props nat true) (Some 2) None None)
                (mkRenderEnv false 0))
       sample_world
     = []
  /\ rInput (exec (render nat 0 1 standin_toString Nat.eq_dec standin_getTextLabelSize
                     (Some (sample_props nat true))
                     (withLayout nat (sample_props nat true) (Some 2) None None)
                     (mkRenderEnv false 0))
               sample_world)
     = Some sample_textarea.
Proof.
  pose (T := rerender_with_same_effect_deps nat 0 1 standin_toString Nat.eq_dec
               standin_getTextLabelSize (sample_props nat true)
               (withLayout nat (sample_props nat true) (Some 2) None None)
               (mkRenderEnv false 0) sample_world eq_refl eq_refl).
  split; [reflexivity|]. split.
  - exact (proj1 T).
  - exact (proj2 (proj2 (proj2 (proj2 T))) eq_refl).
Defined.

(** Another callback while the label is shown. *)
Lemma rerender_with_new_onBlur_witness :
  onBlur nat (sample_props nat false) <> onBlur nat (sample_props_other_onBlur nat false)
  /\ emitted (render nat 0 1 standin_toString Nat.eq_dec standin_getTextLabelSize
                (Some (sample_props nat false)) (sample_props_other_onBlur nat false)
                (mkRenderEnv false 0))
       sample_world_shown
     = [call_onBlur 9].
Proof.
  assert (N : onBlur nat (sample_props nat false)
              <> onBlur nat (sample_props_other_onBlur nat false)) by discriminate.
  split; [exact N|].
  exact (proj1 (rerender_with_new_onBlur nat 0 1 standin_toString Nat.eq_dec
                  standin_getTextLabelSize (sample_props nat false)
                  (sample_props_other_onBlur nat false) (mkRenderEnv false 0)
                  sample_world_shown eq_refl N)).
Defined.

(** The first render, then a change of the x offset with the same size. *)
Lemma layout_stays_in_sync_witness :
  layout_in_sync nat 0 1 standin_toString standin_getTextLabelSize
    (withLayout nat (sample_props nat false) None (Some 4) None)
    (exec (render nat 0 1 standin_toString Nat.eq_dec standin_getTextLabelSize
             (Some (sample_props nat false))
             (withLayout nat (sample_props nat false) None (Some 4) None)
             (mkRenderEnv false 0))
       (exec (render nat 0 1 standin_toString Nat.eq_dec standin_getTextLabelSize
                None (sample_props nat false) (mkRenderEnv true 0))
          sample_world_fresh)).
Proof.
  apply (layout_stays_in_sync nat 0 1 standin_toString Nat.eq_dec
           standin_getTextLabelSize (Some (sample_props nat false))).
  split.
  - vm_compute. repeat split; reflexivity.
  - intros _. reflexivity.
Defined.

(** The sample session ends with the label shown. *)
Lemma session_keeps_consistent_witness :
  exists c : Component nat,
    run nat 0 1 standin_toString Nat.eq_dec standin_normalizeText standin_indent
      standin_unindent standin_getTextLabelSize (sample_session nat) (unmounted nat)
    = Some c
    /\ rendered nat c = Some (sample_props nat false)
    /\ rInnerWrapper (world nat c) <> None.
Proof.
  eexists. split; [lazy; reflexivity|]. split; [reflexivity|].
  refine (proj2 (proj2 (session_keeps_consistent nat 0 1 standin_toString Nat.eq_dec
                          standin_normalizeText standin_indent standin_unindent
                          standin_getTextLabelSize (sample_session nat) _
                          (sample_props nat false) _ _)));
    vm_compute; reflexivity.
Defined.

(** A session without a frame. *)
Lemma no_select_before_first_frame_witness :
  exists c : Component nat,
    run nat 0 1 standin_toString Nat.eq_dec standin_normalizeText standin_indent
      standin_unindent standin_getTextLabelSize (sample_session_no_frame nat)
      (unmounted nat)
    = Some c
    /\ ~ In (AnimationFrame nat) (sample_session_no_frame nat)
    /\ rIsMounted (world nat c) = false
    /\ ~ In call_select (calls (world nat c)).
Proof.
  assert (N : ~ In (AnimationFrame nat) (sample_session_no_frame nat)).
  { intros H. cbn in H.
    repeat (destruct H as [H|H]; [discriminate H|]). exact H. }
  eexists. split; [lazy; reflexivity|]. split; [exact N|].
  apply (no_select_before_first_frame nat 0 1 standin_toString Nat.eq_dec
           standin_normalizeText standin_indent standin_unindent
           standin_getTextLabelSize (sample_session_no_frame nat) _ N).
  vm_compute; reflexivity.
Defined.

(** Leaving edit mode and entering it again. *)
Lemma rIsMounted_is_never_reset_witness :
  exists c : Component nat,
    run nat 0 1 standin_toString Nat.eq_dec standin_normalizeText standin_indent
      standin_unindent standin_getTextLabelSize
      [Render nat (sample_props nat false) (mkRenderEnv false 0);
       Render nat (sample_props nat true) (mkRenderEnv true 3)]
      (mkComponent nat (Some (sample_props nat true)) sample_world)
    = Some c
    /\ rIsMounted sample_world = true
    /\ rIsMounted (world nat c) = true.
Proof.
  eexists. split; [lazy; reflexivity|]. split; [reflexivity|].
  apply (rIsMounted_is_never_reset nat 0 1 standin_toString Nat.eq_dec
           standin_normalizeText standin_indent standin_unindent
           standin_getTextLabelSize
           [Render nat (sample_props nat false) (mkRenderEnv false 0);
            Render nat (sample_props nat true) (mkRenderEnv true 3)]
           (mkComponent nat (Some (sample_props nat true)) sample_world));
    vm_compute; reflexivity.
Defined.

(** Entering edit mode after a frame has run before. *)
Lemma entering_edit_again_selects_at_once_witness :
  rIsMounted sample_world_shown = true /\ activeElement sample_world_shown = false
  /\ rInput (exec (render nat 0 1 standin_toString Nat.eq_dec standin_getTextLabelSize
                     (Some (sample_props nat false)) (sample_props nat true)
                     (mkRenderEnv true 2))
               sample_world_shown)
     = Some (mkTextArea "label" 0 5).
Proof.
  split; [reflexivity|]. split; [reflexivity|].
  exact (proj2 (entering_edit_again_selects_at_once nat 0 1 standin_toString
                  Nat.eq_dec standin_getTextLabelSize (sample_props nat false)
                  (sample_props nat true) (mkRenderEnv true 2) sample_world_shown
                  eq_refl eq_refl eq_refl eq_refl)).
Defined.

(** A pointer press at the end of the editing session. *)
Lemma pointer_press_is_always_stopped_witness :
  exists c c' : Component nat,
    run nat 0 1 standin_toString Nat.eq_dec standin_normalizeText standin_indent
      standin_unindent standin_getTextLabelSize (sample_session_editing nat)
      (unmounted nat)
    = Some c
    /\ dispatch nat 0 1 standin_toString Nat.eq_dec standin_normalizeText
         standin_indent standin_unindent standin_getTextLabelSize
         (PointerDown nat) c
       = Some c'
    /\ world nat c'
       = set_calls (calls (world nat c) ++ [call_pointer_stopPropagation])
           (world nat c).
Proof.
  eexists. eexists. split; [lazy; reflexivity|]. split; [lazy; reflexivity|].
  apply (pointer_press_is_always_stopped nat 0 1 standin_toString Nat.eq_dec
           standin_normalizeText standin_indent standin_unindent
           standin_getTextLabelSize (sample_session_editing nat));
    vm_compute; reflexivity.
Defined.

(** The focus comes back at the end of the editing session. *)
Lemma focus_regained_selects_all_witness :
  exists c c' : Component nat,
    run nat 0 1 standin_toString Nat.eq_dec standin_normalizeText standin_indent
      standin_unindent standin_getTextLabelSize (sample_session_editing nat)
      (unmounted nat)
    = Some c
    /\ rIsMounted (world nat c) = true
    /\ dispatch nat 0 1 standin_toString Nat.eq_dec standin_normalizeText
         standin_indent standin_unindent standin_getTextLabelSize
         (FocusIn nat) c
       = Some c'
    /\ rInput (world nat c') = Some (mkTextArea "label" 0 5).
Proof.
  eexists. eexists. split; [lazy; reflexivity|]. split; [reflexivity|].
  split; [lazy; reflexivity|].
  destruct (focus_regained_selects_all nat 0 1 standin_toString Nat.eq_dec
              standin_normalizeText standin_indent standin_unindent
              standin_getTextLabelSize (sample_session_editing nat) _ _
              ltac:(vm_compute; reflexivity) ltac:(reflexivity)
              ltac:(vm_compute; reflexivity)) as (el & R1 & R2 & _).
  vm_compute in R1. injection R1 as <-. exact R2.
Defined.

(** Ctrl+Enter in the sample textarea. *)
Lemma mod_Enter_exits_witness :
  key key_mod_Enter = "Enter" /\ ctrlKey key_mod_Enter = true
  /\ rInput sample_world = Some sample_textarea
  /\ activeElement sample_world = true
  /\ emitted (handleKeyDown nat standin_normalizeText standin_indent standin_unindent
                (sample_props nat true) key_mod_Enter) sample_world
     = [call_stopPropagation; call_blur; call_setSelectionRange 0 0; call_onBlur 7].
Proof.
  do 4 (split; [reflexivity|]).
  apply emitted_from_calls. unfold exec.
  rewrite (mod_Enter_exits nat standin_normalizeText standin_indent standin_unindent
             (sample_props nat true) key_mod_Enter sample_world sample_textarea
             eq_refl (or_introl eq_refl) eq_refl eq_refl).
  reflexivity.
Defined.

(** Escape in the sample textarea, then the label is shown. *)
Lemma Escape_then_leaving_edit_calls_onBlur_twice_witness :
  key key_Escape = "Escape"
  /\ rInput sample_world = Some sample_textarea
  /\ activeElement sample_world = true
  /\ count_occ Call_eq_dec
       (emitted (handleKeyDown nat standin_normalizeText standin_indent
                   standin_unindent (sample_props nat true) key_Escape)
          sample_world
        ++ emitted (render nat 0 1 standin_toString Nat.eq_dec
                      standin_getTextLabelSize (Some (sample_props nat true))
                      (sample_props nat false) (mkRenderEnv false 0))
             (exec (handleKeyDown nat standin_normalizeText standin_indent
                      standin_unindent (sample_props nat true) key_Escape)
                sample_world))
       (call_onBlur 7) = 2.
Proof.
  do 3 (split; [reflexivity|]).
  exact (Escape_then_leaving_edit_calls_onBlur_twice nat 0 1 standin_toString
           Nat.eq_dec standin_normalizeText standin_indent standin_unindent
           standin_getTextLabelSize (sample_props nat true) (sample_props nat false)
           key_Escape (mkRenderEnv false 0) sample_world sample_textarea 7
           eq_refl eq_refl eq_refl eq_refl eq_refl eq_refl eq_refl).
Defined.
